(** * Credit ledger of the SaaS backend: a shallow embedding

    The development follows the JavaScript sources:

    - [src/config/ai.js]        pricing catalog, [getProviderForModel],
                                [calculateCredits], [isModelAvailable],
                                [callRealAI];
    - [src/unnamed/part_003]    the User model: schema defaults,
                                [deductCredits], [addCredits];
    - [src/unnamed/part_002]    the AILog and Transaction models: their
                                validators, [markCompleted], [markFailed],
                                [processRefund];
    - [src/routes/payments.js]  [handlePaymentSuccess],
                                [handlePaymentFailure], the webhook switch,
                                and the [POST /register] handler kept in the
                                same file;
    - [src/routes/admin.js]     [PUT /transactions/:id/refund];
    - [src/routes/ai.js]        [POST /generate].

    Conventions.  A JavaScript Number holding a credit count is an integer
    ([Z]); a Number that takes part in the price arithmetic is a binary64
    value ([Number.t]); a Number holding money is a rational ([Q]).  A
    property read [o[key]] on a plain object finds the object's own keys
    and the members every object inherits from [Object.prototype]
    ([Obj.get]).  The users collection is a finite map from document id to
    document, the transactions collection a list in insertion order whose
    positions are the document ids, so that [findOne] returns the oldest
    match.  [Date.now()] is an explicit argument.  [save()] runs the
    validators of the schema and throws when one fails; each model keeps
    the fields the handlers compute with and those on which a validator can
    fail in these handlers (a required field the handler leaves out, an
    enum, a [min: 0]), and a document is written to the store only when its
    [save()] goes through. *)

From Stdlib Require Import ZArith QArith Qround Qminmax SpecFloat.
From Stdlib Require PrimFloat FloatOps.
From stdpp Require Import gmap strings list fin_maps pretty.

Local Open Scope Z_scope.

(** ** JavaScript values *)

(** *** Numbers *)

Module Number.

(** A Number is an IEEE 754 binary64 value; the operations are the ones
    the Standard Library specifies for [prec = 53] and [emax = 1024], each
    rounding its exact result to the nearest value, ties to even. *)
Definition t : Type := spec_float.

Definition prec : Z := 53.
Definition emax : Z := 1024.

Definition NaN : t := S754_nan.

(** The Number an integer denotes (the nearest one beyond 2^53). *)
Definition ofZ (z : Z) : t := binary_normalize prec emax z 0 false.

(** [a * b] and [a / b] *)
Definition mul (a b : t) : t := SFmul prec emax a b.
Definition div (a b : t) : t := SFdiv prec emax a b.

(** The Number a decimal literal denotes: [decimal 3 5] is [0.00003].  For
    [n] and [10^k] below 2^53 the quotient of the two integers, rounded
    once, is the value nearest to the literal
    ([decimal_is_the_literal]). *)
Definition decimal (n : Z) (k : nat) : t := div (ofZ n) (ofZ (10 ^ Z.of_nat k)).

(** [a < b] and [a <= b]; both are false when an operand is [NaN]. *)
Definition ltb (a b : t) : bool := SFltb a b.
Definition leb (a b : t) : bool := SFleb a b.

(** The integer a Number holds, when it holds one. *)
Definition toZ (x : t) : option Z :=
  match x with
  | S754_zero _ => Some 0
  | S754_finite s m e =>
      if 0 <=? e then Some (cond_Zopp s (Zpos m * 2 ^ e))
      else if Zpos m mod 2 ^ (- e) =? 0
           then Some (cond_Zopp s (Zpos m / 2 ^ (- e)))
           else None
  | _ => None
  end.

End Number.

Module Math.

(** [Math.ceil(x)]: the least integer not below [x]; [NaN], the
    infinities and the zeros are returned as they are, and a value in
    (-1, 0) gives [-0].  A finite value with a non-negative exponent is an
    integer already. *)
Definition ceil (x : Number.t) : Number.t :=
  match x with
  | S754_finite s m e =>
      if 0 <=? e then x
      else
        binary_normalize Number.prec Number.emax
          (- ((- cond_Zopp s (Zpos m)) / 2 ^ (- e))) 0 s
  | _ => x
  end.

(** [Math.max(a, b)]: [NaN] when an argument is [NaN], else the larger
    one, [+0] counting as larger than [-0]. *)
Definition max (a b : Number.t) : Number.t :=
  match SFcompare a b with
  | None => Number.NaN
  | Some Lt => b
  | Some Gt => a
  | Some Eq => match a with S754_zero true => b | _ => a end
  end.

End Math.

(** *** Plain objects *)

Module Obj.

(** The names of the members every plain object inherits from
    [Object.prototype]: eleven functions and the [__proto__] accessor,
    which answers with [Object.prototype] itself.  Each of these values is
    truthy and none of them has a property of its own that the sources
    read. *)
Definition inherited : list string :=
  ["constructor"; "__defineGetter__"; "__defineSetter__"; "hasOwnProperty";
   "__lookupGetter__"; "__lookupSetter__"; "isPrototypeOf";
   "propertyIsEnumerable"; "toString"; "valueOf"; "__proto__";
   "toLocaleString"]%string.

(** What [o[key]] evaluates to. *)
Inductive Member (A : Type) :=
  | Own (a : A)       (* the value stored under an own key *)
  | Inherited         (* a member of Object.prototype *)
  | Undefined.        (* undefined *)
Arguments Own {A} a.
Arguments Inherited {A}.
Arguments Undefined {A}.

(** [o[key]] on an object literal whose own properties are [o]. *)
Definition get {A : Type} (o : gmap string A) (key : string) : Member A :=
  match o !! key with
  | Some a => Own a
  | None => if bool_decide (key ∈ inherited) then Inherited else Undefined
  end.

End Obj.

(** *** Strings *)

Module Utf16.

(** The strings of this development hold UTF-8 text, one byte per
    character of the [string]; a JavaScript string holds the same text in
    UTF-16.  The bytes of one code point contribute its UTF-16 code units
    at the leading byte: one unit for a code point below U+10000, two (a
    surrogate pair) for one above, none at a continuation byte. *)
Definition units (b : Ascii.ascii) : nat :=
  let n := Ascii.nat_of_ascii b in
  if (n <? 128)%nat then 1%nat          (* 0xxxxxxx *)
  else if (n <? 192)%nat then 0%nat     (* 10xxxxxx, a continuation byte *)
  else if (n <? 240)%nat then 1%nat     (* 110xxxxx, 1110xxxx *)
  else 2%nat.                           (* 11110xxx *)

(** [s.length] *)
Fixpoint length (s : string) : nat :=
  match s with
  | EmptyString => 0%nat
  | String b rest => (units b + length rest)%nat
  end.

End Utf16.

(** ** Pricing policy ([config/ai.js]) *)

Module Pricing.

(** One entry of [AI_PROVIDERS.<provider>.models]. *)
Record ModelConfig := {
  name : string;
  endpoint : string;
  costPerToken : Number.t;
  maxTokens : Z
}.

(** One entry of [AI_PROVIDERS]; [apiKey] is read from the environment. *)
Record ProviderConfig := {
  baseURL : string;
  apiKey : option string;
  models : gmap string ModelConfig
}.

(** [for (const [provider, config] of Object.entries(...))
       if (config.models[model]) return provider;
     return null]
    A configuration and an inherited member are both truthy. *)
Fixpoint findProvider (l : list (string * ProviderConfig)) (model : string)
  : option string :=
  match l with
  | [] => None
  | (provider, config) :: rest =>
      match Obj.get (models config) model with
      | Obj.Own _ | Obj.Inherited => Some provider
      | Obj.Undefined => findProvider rest model
      end
  end.

(** [table[provider]] for a provider key that [Object.entries] listed. *)
Fixpoint providerConfig (l : list (string * ProviderConfig)) (provider : string)
  : option ProviderConfig :=
  match l with
  | [] => None
  | (p, config) :: rest =>
      if String.eqb p provider then Some config else providerConfig rest provider
  end.

Section Policy.

(** [process.env.OPENAI_API_KEY] and [process.env.ANTHROPIC_API_KEY]. *)
Variables (OPENAI_API_KEY ANTHROPIC_API_KEY : option string).

Definition openai : ProviderConfig := {|
  baseURL := "https://api.openai.com/v1";
  apiKey := OPENAI_API_KEY;
  models :=
    <["gpt-4"%string :=
        {| name := "GPT-4"; endpoint := "/chat/completions";
           costPerToken := Number.decimal 3 5; maxTokens := 8192 |}]>
    (<["gpt-3.5-turbo"%string :=
        {| name := "GPT-3.5 Turbo"; endpoint := "/chat/completions";
           costPerToken := Number.decimal 2 6; maxTokens := 4096 |}]> ∅)
|}.

Definition anthropic : ProviderConfig := {|
  baseURL := "https://api.anthropic.com/v1";
  apiKey := ANTHROPIC_API_KEY;
  models :=
    <["claude-3-sonnet"%string :=
        {| name := "Claude 3 Sonnet"; endpoint := "/messages";
           costPerToken := Number.decimal 15 6; maxTokens := 4096 |}]> ∅
|}.

(** [Object.entries(AI_PROVIDERS)], in insertion order. *)
Definition AI_PROVIDERS : list (string * ProviderConfig) :=
  [("openai"%string, openai); ("anthropic"%string, anthropic)].

(** [function getProviderForModel(model)] *)
Definition getProviderForModel (model : string) : option string :=
  findProvider AI_PROVIDERS model.

(** [AI_PROVIDERS[provider].models[model]] *)
Definition modelConfigOf (provider model : string) : Obj.Member ModelConfig :=
  match providerConfig AI_PROVIDERS provider with
  | Some config => Obj.get (models config) model
  | None => Obj.Undefined
  end.

(** [modelConfig.costPerToken] as the product reads it: the price of a
    configuration, and [undefined], which a product turns into [NaN], for
    an inherited member.  The provider returned by [getProviderForModel]
    holds [model], so the last branch, where the read would throw, is
    never taken ([calculateCredits_config_found]). *)
Definition costPerTokenOf (modelConfig : Obj.Member ModelConfig) : Number.t :=
  match modelConfig with
  | Obj.Own c => costPerToken c
  | Obj.Inherited => Number.NaN
  | Obj.Undefined => Number.NaN
  end.

(** [function calculateCredits(tokens, model)] *)
Definition calculateCredits (tokens : Number.t) (model : string) : Number.t :=
  match getProviderForModel model with
  | None => Number.ofZ 1
  | Some provider =>
      let modelConfig := modelConfigOf provider model in
      let usdCost := Number.mul tokens (costPerTokenOf modelConfig) in
      Math.max (Number.ofZ 1) (Math.ceil (Number.mul usdCost (Number.ofZ 100)))
  end.

(** The credits the formula of the specification gives in exact
    arithmetic, [ceil(max(1, tokens * perTokenCostUSD * 100))], for a
    price written as a fraction. *)
Definition exactCredits (tokens : Z) (perTokenCostUSD : Q) : Z :=
  Qceiling (Qmax 1 (inject_Z tokens * perTokenCostUSD * inject_Z 100)).

(** [function isModelAvailable(model)] *)
Definition isModelAvailable (model : string) : bool :=
  match getProviderForModel model with
  | Some _ => true
  | None => false
  end.

(** A model is in the pricing catalog when some provider lists it. *)
Definition inCatalog (model : string) (modelConfig : ModelConfig) : Prop :=
  ∃ provider config,
    (provider, config) ∈ AI_PROVIDERS ∧ models config !! model = Some modelConfig.

End Policy.

End Pricing.

(** ** Account (the User model, [src/unnamed/part_003]) *)

Module UserModel.

(** The ledger fields of [userSchema]. *)
Record User := {
  credits : Z;
  totalCreditsUsed : Z;
  totalCreditsPurchased : Z;
  isActive : bool
}.

(** What a method of a model throws. *)
Inductive Exception :=
  | InsufficientCredits    (* new Error('Créditos insuficientes') *)
  | ValidationError.       (* save(): a validator or a cast of the schema failed *)

Inductive Result (A : Type) :=
  | Return (a : A)
  | Throw (e : Exception).
Arguments Return {A} a.
Arguments Throw {A} e.

(** [parseInt(process.env.DEFAULT_CREDITS) || 10]; [None] stands for an
    unset or non-numeric variable ([NaN]), which is falsy like [0]. *)
Definition DEFAULT_CREDITS (env : option Z) : Z :=
  match env with
  | Some d => if d =? 0 then 10 else d
  | None => 10
  end.

(** [new User({...})] with the schema defaults of the ledger fields. *)
Definition newUser (env : option Z) : User := {|
  credits := DEFAULT_CREDITS env;
  totalCreditsUsed := 0;
  totalCreditsPurchased := 0;
  isActive := true
|}.

(** [userSchema.methods.deductCredits = function(amount)] *)
Definition deductCredits (this : User) (amount : Z) : Result User :=
  if credits this <? amount then Throw InsufficientCredits
  else Return {|
    credits := credits this - amount;
    totalCreditsUsed := totalCreditsUsed this + amount;
    totalCreditsPurchased := totalCreditsPurchased this;
    isActive := isActive this
  |}.

(** [userSchema.methods.addCredits = function(amount)] for a Number
    [amount]. *)
Definition addCredits (this : User) (amount : Z) : User := {|
  credits := credits this + amount;
  totalCreditsUsed := totalCreditsUsed this;
  totalCreditsPurchased := totalCreditsPurchased this + amount;
  isActive := isActive this
|}.

(** The value of a string of decimal digits read after [acc]; [None] when
    a character is not a digit. *)
Fixpoint digitsFrom (acc : Z) (s : string) : option Z :=
  match s with
  | EmptyString => Some acc
  | String c rest =>
      let d := Z.of_nat (Ascii.nat_of_ascii c) - 48 in
      if (0 <=? d) && (d <=? 9) then digitsFrom (10 * acc + d) rest else None
  end.

(** The value of a non-empty string of decimal digits. *)
Definition digits (s : string) : option Z :=
  match s with
  | EmptyString => None
  | _ => digitsFrom 0 s
  end.

(** [Number(s)], which casts a string assigned to a Number field of the
    schema, on the strings met here: a decimal integer, with or without a
    sign, has its value; a string with any other character after the
    sign, or with no digit, is not a number ([None]) and fails the cast. *)
Definition castNumber (s : string) : option Z :=
  match s with
  | EmptyString => None
  | String c rest =>
      let code := Ascii.nat_of_ascii c in
      if (code =? 45)%nat then Z.opp <$> digits rest       (* "-" *)
      else if (code =? 43)%nat then digits rest            (* "+" *)
      else digits s
  end.

(** [field += amount] for a string [amount] on a Number field holding an
    integer below 10^21: [+] joins the decimal numeral of the field and
    the string, and the assignment casts the result back. *)
Definition appendAmount (field : Z) (amount : string) : option Z :=
  castNumber (pretty field +:+ amount).

(** [userSchema.methods.addCredits = function(amount)] for a string
    [amount]: both fields are built by concatenation, and [save()] throws
    when a cast has failed. *)
Definition addCreditsString (this : User) (amount : string) : Result User :=
  match appendAmount (credits this) amount,
        appendAmount (totalCreditsPurchased this) amount with
  | Some credits', Some purchased' =>
      if 0 <=? credits' then
        Return {|
          credits := credits';
          totalCreditsUsed := totalCreditsUsed this;
          totalCreditsPurchased := purchased';
          isActive := isActive this
        |}
      else Throw ValidationError   (* credits: min 0 *)
  | _, _ => Throw ValidationError
  end.

(** The validators of [userSchema] on the ledger fields of a new
    document: [credits] has [min: 0]. *)
Definition validates (this : User) : bool := 0 <=? credits this.

(** [user.credits -= n] on a loaded document (refund route). *)
Definition setCredits (this : User) (n : Z) : User := {|
  credits := n;
  totalCreditsUsed := totalCreditsUsed this;
  totalCreditsPurchased := totalCreditsPurchased this;
  isActive := isActive this
|}.

End UserModel.

(** ** Transaction (the Transaction model, [src/unnamed/part_002]) *)

Module TransactionModel.

(** [type: enum ['credit_purchase', 'credit_usage', 'subscription',
    'refund', 'bonus']] *)
Inductive TxType :=
  | credit_purchase | credit_usage | subscription | refund_type | bonus.

(** [status: enum ['pending', 'completed', 'failed', 'cancelled',
    'refunded']] *)
Inductive TxStatus :=
  | pending | completed | failed | cancelled | refunded.

#[global] Instance TxStatus_eq_dec : EqDecision TxStatus.
Proof. solve_decision. Defined.

(** The [refund] sub-document. *)
Record RefundInfo := {
  isRefunded : bool;
  refundAmount : Q;
  refundDate : option Z;
  refundReason : option string;
  refundTransactionId : option string
}.

Definition noRefund : RefundInfo := {|
  isRefunded := false;
  refundAmount := 0;
  refundDate := None;
  refundReason := None;
  refundTransactionId := None
|}.

(** The fields of [transactionSchema] the ledger reads or writes. *)
Record Transaction := {
  user : nat;
  type : TxType;
  status : TxStatus;
  amount : Q;
  credits : Z;
  paymentIntentId : option string;
  refund : RefundInfo;
  completedAt : option Z;
  failedAt : option Z;
  failureReason : option string
}.

(** [transactionSchema.methods.markCompleted = function()] *)
Definition markCompleted (this : Transaction) (now : Z) : Transaction := {|
  user := user this; type := type this;
  status := completed;
  amount := amount this; credits := credits this;
  paymentIntentId := paymentIntentId this;
  refund := refund this;
  completedAt := Some now;
  failedAt := failedAt this;
  failureReason := failureReason this
|}.

(** [transactionSchema.methods.markFailed = function(reason)] *)
Definition markFailed (this : Transaction) (reason : string) (now : Z)
  : Transaction := {|
  user := user this; type := type this;
  status := failed;
  amount := amount this; credits := credits this;
  paymentIntentId := paymentIntentId this;
  refund := refund this;
  completedAt := completedAt this;
  failedAt := Some now;
  failureReason := Some reason
|}.

(** [package: enum ['basic', 'premium', 'enterprise', 'custom']] *)
Definition packageEnum : list string :=
  ["basic"; "premium"; "enterprise"; "custom"]%string.

(** [aiUsage.requestType: enum ['text', 'image', 'code', 'analysis', 'chat']] *)
Definition aiUsageRequestTypeEnum : list string :=
  ["text"; "image"; "code"; "analysis"; "chat"]%string.

(** [a || b] on Numbers: [0] is falsy. *)
Definition orNumber (a b : Q) : Q := if Qeq_bool a 0 then b else a.

(** [transactionSchema.methods.processRefund =
      function(amount, reason, refundTransactionId)] *)
Definition processRefund (this : Transaction) (amount : Q) (reason : string)
    (refundTransactionId : string) (now : Z) : Transaction := {|
  user := user this; type := type this;
  status := refunded;
  amount := TransactionModel.amount this; credits := credits this;
  paymentIntentId := paymentIntentId this;
  refund := {|
    isRefunded := true;
    refundAmount := orNumber amount (TransactionModel.amount this);
    refundDate := Some now;
    refundReason := Some reason;
    refundTransactionId := Some refundTransactionId
  |};
  completedAt := completedAt this;
  failedAt := failedAt this;
  failureReason := failureReason this
|}.

End TransactionModel.

(** ** The store: the [users] and [transactions] collections *)

Module Store.
Import UserModel TransactionModel.

Record DB := {
  users : gmap nat User;
  transactions : list Transaction
}.

(** [await user.save()] for the document with id [uid]. *)
Definition saveUser (db : DB) (uid : nat) (u : User) : DB := {|
  users := <[uid := u]> (users db);
  transactions := transactions db
|}.

(** [await transaction.save()] for the document at position [i]. *)
Definition saveTransaction (db : DB) (i : nat) (tx : Transaction) : DB := {|
  users := users db;
  transactions := <[i := tx]> (transactions db)
|}.

(** [await new Transaction({...}).save()] for a document that passes the
    validators of the schema. *)
Definition createTransaction (db : DB) (tx : Transaction) : DB := {|
  users := users db;
  transactions := transactions db ++ [tx]
|}.

(** [Transaction.findOne({'paymentProvider.paymentIntentId': id})] *)
Definition findByPaymentIntent (db : DB) (id : string)
  : option (nat * Transaction) :=
  list_find (λ tx, paymentIntentId tx = Some id) (transactions db).

(** Every stored balance is non-negative (the schema's [min: 0] on
    [credits]). *)
Definition balancesNonneg (db : DB) : Prop :=
  ∀ uid u, users db !! uid = Some u → 0 <= UserModel.credits u.

(** Every stored transaction carries a non-negative credit count (the
    schema's [min: 0] on [credits]). *)
Definition grantsNonneg (db : DB) : Prop :=
  ∀ i tx, transactions db !! i = Some tx → 0 <= TransactionModel.credits tx.

End Store.

(** ** Payment settlement ([routes/payments.js]) *)

Module Payments.
Import UserModel TransactionModel Store.

(** The fields of Stripe's [paymentIntent] object the handlers read. *)
Record PaymentIntent := {
  id : string;
  last_payment_error : option string   (* last_payment_error?.message *)
}.

(** [async function handlePaymentSuccess(paymentIntent)] *)
Definition handlePaymentSuccess (db : DB) (paymentIntent : PaymentIntent)
    (now : Z) : DB :=
  match findByPaymentIntent db (id paymentIntent) with
  | None => db
  | Some (i, transaction) =>
      if bool_decide (status transaction = completed) then db
      else
        match users db !! user transaction with
        | Some u =>
            let db1 :=
              saveUser db (user transaction)
                (addCredits u (TransactionModel.credits transaction)) in
            saveTransaction db1 i (markCompleted transaction now)
        | None => db
        end
  end.

(** [paymentIntent.last_payment_error?.message || 'Pagamento falhou'] *)
Definition failureMessage (paymentIntent : PaymentIntent) : string :=
  match last_payment_error paymentIntent with
  | Some m => if bool_decide (m = ""%string) then "Pagamento falhou"%string else m
  | None => "Pagamento falhou"%string
  end.

(** [async function handlePaymentFailure(paymentIntent)] *)
Definition handlePaymentFailure (db : DB) (paymentIntent : PaymentIntent)
    (now : Z) : DB :=
  match findByPaymentIntent db (id paymentIntent) with
  | None => db
  | Some (i, transaction) =>
      if bool_decide (status transaction ≠ pending) then db
      else saveTransaction db i
             (markFailed transaction (failureMessage paymentIntent) now)
  end.

(** The verified webhook event: [event.type] with [event.data.object]. *)
Inductive Event :=
  | payment_intent_succeeded (paymentIntent : PaymentIntent)
  | payment_intent_payment_failed (paymentIntent : PaymentIntent)
  | unhandled.

(** The [switch (event.type)] of [POST /webhook]. *)
Definition webhook (db : DB) (event : Event) (now : Z) : DB :=
  match event with
  | payment_intent_succeeded paymentIntent =>
      handlePaymentSuccess db paymentIntent now
  | payment_intent_payment_failed paymentIntent =>
      handlePaymentFailure db paymentIntent now
  | unhandled => db
  end.

(** The same succeeded event delivered once per element of [times]
    (the clock reading of each delivery). *)
Definition replaySuccess (db : DB) (paymentIntent : PaymentIntent)
    (times : list Z) : DB :=
  fold_left (λ d now, handlePaymentSuccess d paymentIntent now) times db.

End Payments.

(** ** Admin refund ([routes/admin.js]) *)

Module Admin.
Import UserModel TransactionModel Store.

(** The responses of [PUT /transactions/:id/refund]. *)
Inductive RefundResponse :=
  | InvalidData400        (* 'Dados inválidos' *)
  | NotFound404           (* 'Transação não encontrada' *)
  | NotCompleted400       (* 'Apenas transações completas podem ser reembolsadas' *)
  | AlreadyRefunded400    (* 'Transação já foi reembolsada' *)
  | Refunded200           (* 'Reembolso processado com sucesso' *)
  | ServerError500.       (* 'Erro interno do servidor' *)

(** [req.body]: [reason] and the optional [amount]. *)
Record RefundBody := {
  reason : string;
  amount : option Q
}.

(** [body('reason').notEmpty()] and
    [body('amount').optional().isFloat({ min: 0 })] *)
Definition validRefundBody (body : RefundBody) : bool :=
  negb (bool_decide (reason body = ""%string)) &&
  match amount body with
  | Some a => Qle_bool 0 a
  | None => true
  end.

(** [amount || transaction.amount] with [amount] possibly [undefined]. *)
Definition refundAmountOf (body : RefundBody) (transaction : Transaction) : Q :=
  match amount body with
  | Some a => orNumber a (TransactionModel.amount transaction)
  | None => TransactionModel.amount transaction
  end.

(** The credit clawback of the refund route:
    [if (transaction.credits > 0 && transaction.user.credits >= transaction.credits)
       { transaction.user.credits -= transaction.credits; ... save() }];
    [None] when the guard fails and the user is left alone. *)
Definition clawback (u : User) (txCredits : Z) : option User :=
  if (0 <? txCredits) && (txCredits <=? UserModel.credits u)
  then Some (setCredits u (UserModel.credits u - txCredits))
  else None.

(** The handler of [PUT /transactions/:id/refund]; [id] is the position
    of the transaction in the collection. *)
Definition refundRoute (db : DB) (id : nat) (body : RefundBody) (now : Z)
  : RefundResponse * DB :=
  if negb (validRefundBody body) then (InvalidData400, db)
  else
    match transactions db !! id with
    | None => (NotFound404, db)
    | Some transaction =>
        if bool_decide (status transaction ≠ completed) then (NotCompleted400, db)
        else if isRefunded (refund transaction) then (AlreadyRefunded400, db)
        else
          let refundAmount := refundAmountOf body transaction in
          let refundTransactionId := ("refund_" +:+ pretty now)%string in
          let db1 :=
            saveTransaction db id
              (processRefund transaction refundAmount (reason body)
                 refundTransactionId now) in
          match users db1 !! user transaction with
          | None =>
              (* populate('user') gave null: reading [user.credits] throws *)
              if 0 <? TransactionModel.credits transaction
              then (ServerError500, db1)
              else (Refunded200, db1)
          | Some u =>
              match clawback u (TransactionModel.credits transaction) with
              | Some u' => (Refunded200, saveUser db1 (user transaction) u')
              | None => (Refunded200, db1)
              end
          end
    end.

End Admin.

(** ** Registration ([POST /register], stored with [routes/payments.js]) *)

Module Auth.
Import UserModel TransactionModel Store.

(** The welcome-bonus transaction of [POST /register]. *)
Definition welcomeTransaction (env : option Z) (uid : nat) (now : Z)
  : Transaction := {|
  user := uid; type := bonus; status := completed;
  amount := 0; credits := DEFAULT_CREDITS env;
  paymentIntentId := None; refund := noRefund;
  completedAt := Some now; failedAt := None; failureReason := None
|}.

(** The handler of [POST /register]: a new user with the schema defaults
    under the fresh id [uid], then the welcome-bonus transaction.  When
    the new user fails the validators of the schema, [user.save()] throws
    and the handler answers 500 with nothing stored. *)
Definition register (db : DB) (env : option Z) (uid : nat) (now : Z) : DB :=
  if validates (newUser env) then
    createTransaction (saveUser db uid (newUser env))
      (welcomeTransaction env uid now)
  else db.

End Auth.

(** ** Prompt preparation ([routes/ai.js]) *)

Module Prompting.

(** The [prompts] table of [preparePrompt]. *)
Definition prompts (prompt : string) : gmap string string :=
  <["marketing_campaign"%string :=
      ("Como especialista em marketing digital, analise e forneça estratégias para: "
         +:+ prompt)%string]>
  (<["sms_campaign"%string :=
      ("Como especialista em SMS marketing, crie uma campanha eficaz para: "
         +:+ prompt)%string]>
  (<["email_campaign"%string :=
      ("Como especialista em email marketing, desenvolva uma estratégia para: "
         +:+ prompt)%string]>
  (<["audience_analysis"%string :=
      ("Como analista de dados, analise o público-alvo para: " +:+ prompt)%string]>
  (<["content_generation"%string :=
      ("Como copywriter especializado, crie conteúdo persuasivo para: "
         +:+ prompt)%string]>
  (<["text_generation"%string := prompt]>
  (<["chat"%string := prompt]>
  (<["default"%string := prompt]> ∅))))))).

(** [prompts[requestType] || prompts.default]: a missing entry and an
    empty string are both falsy. *)
Definition preparePrompt (prompt requestType : string) : string :=
  match prompts prompt !! requestType with
  | Some p => if bool_decide (p = ""%string) then prompt else p
  | None => prompt
  end.

End Prompting.

(** ** AI log (the AILog model, [src/unnamed/part_002]) *)

Module AILogModel.

(** [status] of an [AILog] document, as the handler sets it. *)
Inductive LogStatus := processing | log_completed | log_failed.

(** The fields of an [AILog] the handler writes and the two required
    fields it leaves to later. *)
Record AILog := {
  log_user : nat;
  log_requestType : string;
  log_model : string;
  log_status : LogStatus;
  log_processingTime : option Z;      (* performance.processingTime *)
  log_credits : option Number.t       (* cost.credits *)
}.

(** [requestType: enum [...]] of [aiLogSchema] *)
Definition requestTypeEnum : list string :=
  ["text_generation"; "code_generation"; "image_analysis"; "chat";
   "hacking_tools"; "vulnerability_scan"; "penetration_test"]%string.

(** [model: enum [...]] of [aiLogSchema] *)
Definition modelEnum : list string :=
  ["gpt-4"; "gpt-3.5-turbo"; "claude-3"; "gemini-pro"; "custom-hacking-ai"]%string.

(** The validators of [aiLogSchema] on these fields: the two enums, and
    [performance.processingTime] and [cost.credits], both
    [required: true] with [min: 0]. *)
Definition validates (aiLog : AILog) : bool :=
  bool_decide (log_requestType aiLog ∈ requestTypeEnum) &&
  bool_decide (log_model aiLog ∈ modelEnum) &&
  match log_processingTime aiLog with
  | Some ms => 0 <=? ms
  | None => false
  end &&
  match log_credits aiLog with
  | Some c => Number.leb (Number.ofZ 0) c
  | None => false
  end.

(** [aiLogSchema.methods.markCompleted], before its [save()] *)
Definition markCompleted (this : AILog) (processingTime : Z) : AILog := {|
  log_user := log_user this;
  log_requestType := log_requestType this;
  log_model := log_model this;
  log_status := log_completed;
  log_processingTime := Some processingTime;
  log_credits := log_credits this
|}.

(** [aiLogSchema.methods.markFailed], before its [save()] *)
Definition markFailed (this : AILog) : AILog := {|
  log_user := log_user this;
  log_requestType := log_requestType this;
  log_model := log_model this;
  log_status := log_failed;
  log_processingTime := log_processingTime this;
  log_credits := log_credits this
|}.

(** [aiLog.cost = { credits: actualCredits, ... }] *)
Definition setCost (this : AILog) (actualCredits : Number.t) : AILog := {|
  log_user := log_user this;
  log_requestType := log_requestType this;
  log_model := log_model this;
  log_status := log_status this;
  log_processingTime := log_processingTime this;
  log_credits := Some actualCredits
|}.

End AILogModel.

(** ** Metered AI usage ([routes/ai.js], [config/ai.js]) *)

Module AI.
Import Pricing UserModel TransactionModel Store.

(** What the external provider answers to one HTTP call. *)
Inductive ProviderAnswer :=
  | Answered (response : string) (tokensTotal : Z) (processingTime : Z)
  | Failed (message : string).

(** The state [POST /generate] reads and writes: the store, the AI logs,
    and the number of HTTP calls made to an external provider. *)
Record World := {
  db : DB;
  aiLogs : list AILogModel.AILog;
  providerCalls : nat
}.

(** [await aiLog.save()] for the document with id [id]: the validators
    run first; a new document is appended, a stored one replaced. *)
Definition saveAILog (w : World) (id : nat) (aiLog : AILogModel.AILog)
  : Result World :=
  if AILogModel.validates aiLog then
    Return {|
      db := db w;
      aiLogs :=
        if (id <? length (aiLogs w))%nat then <[id := aiLog]> (aiLogs w)
        else aiLogs w ++ [aiLog];
      providerCalls := providerCalls w
    |}
  else Throw ValidationError.

(** [req.body] as the handler destructures it. *)
Record GenerateBody := {
  prompt : string;
  model : option string;         (* default 'gpt-3.5-turbo' *)
  requestType : option string    (* default 'text_generation' *)
}.

(** What the handler of [POST /generate] does with the response. *)
Inductive GenerateResponse :=
  | Unauthorized401                      (* authenticateToken: no such user *)
  | ModelNotFound400                     (* 'Modelo de IA não encontrado ou não disponível' *)
  | InsufficientCredits402 (required : Number.t) (available : Z)
                                         (* 'Créditos insuficientes' *)
  | Generated200 (creditsUsed remainingCredits : Z)
  | ServerError500                       (* 'Erro interno do servidor' *)
  | HandlerRejected.                     (* the catch block threw: the handler
                                            has written no answer *)

Section Handler.

Variables (OPENAI_API_KEY ANTHROPIC_API_KEY : option string).

(** The external provider: its answer to a prompt sent to a model. *)
Variable provider : string -> string -> string -> ProviderAnswer.

Abbreviation calculateCredits :=
  (Pricing.calculateCredits OPENAI_API_KEY ANTHROPIC_API_KEY).
Abbreviation isModelAvailable :=
  (Pricing.isModelAvailable OPENAI_API_KEY ANTHROPIC_API_KEY).
Abbreviation getProviderForModel :=
  (Pricing.getProviderForModel OPENAI_API_KEY ANTHROPIC_API_KEY).
Abbreviation AI_PROVIDERS :=
  (Pricing.AI_PROVIDERS OPENAI_API_KEY ANTHROPIC_API_KEY).

(** [!config.apiKey]: an unset or empty key is falsy. *)
Definition hasApiKey (config : ProviderConfig) : bool :=
  match apiKey config with
  | Some k => negb (bool_decide (k = ""%string))
  | None => false
  end.

(** [async function callRealAI(prompt, model, parameters)]: the answer
    and the number of HTTP calls it made (0 or 1). *)
Definition callRealAI (prompt model : string) : ProviderAnswer * nat :=
  match getProviderForModel model with
  | None => (Failed "Modelo nao suportado", 0%nat)
  | Some p =>
      match providerConfig AI_PROVIDERS p with
      | None => (Failed "Modelo nao suportado", 0%nat)
      | Some config =>
          if hasApiKey config then
            match provider p prompt model with
            | Answered r t ms => (Answered r t ms, 1%nat)
            | Failed m => (Failed ("Falha na comunicacao: " +:+ m), 1%nat)
            end
          else (Failed "API key nao configurada", 0%nat)
      end
  end.

(** [Math.ceil(prompt.length / 4) + 500] *)
Definition estimatedTokens (prompt : string) : Z :=
  Qceiling (inject_Z (Z.of_nat (Utf16.length prompt)) / inject_Z 4) + 500.

(** The [credit_usage] transaction written after a successful debit. *)
Definition usageTransaction (uid : nat) (actualCredits now : Z) : Transaction := {|
  user := uid; type := credit_usage; status := completed;
  amount := 0; credits := actualCredits;
  paymentIntentId := None; refund := noRefund;
  completedAt := Some now; failedAt := None; failureReason := None
|}.

(** The world after [calls] more HTTP calls to a provider. *)
Definition called (w : World) (calls : nat) : World :=
  {| db := db w; aiLogs := aiLogs w;
     providerCalls := (providerCalls w + calls)%nat |}.

(** The world with another store. *)
Definition stored (w : World) (db' : DB) : World :=
  {| db := db'; aiLogs := aiLogs w; providerCalls := providerCalls w |}.

(** The [catch] block: [await aiLog.markFailed(error)], then the 500
    answer.  [markFailed] saves the document; when that [save()] throws,
    the block is left before the answer is written. *)
Definition catchBlock (w : World) (id : nat) (aiLog : AILogModel.AILog)
  : GenerateResponse * World :=
  match saveAILog w id (AILogModel.markFailed aiLog) with
  | Return w' => (ServerError500, w')
  | Throw _ => (HandlerRejected, w)
  end.

(** The handler of [POST /generate], run for the user [uid] that
    [authenticateToken] loaded into [req.user].  [aiLog] is the document
    as the handler holds it in memory, [id] its [_id]. *)
Definition generate (w : World) (uid : nat) (body : GenerateBody) (now : Z)
  : GenerateResponse * World :=
  match users (db w) !! uid with
  | None => (Unauthorized401, w)
  | Some reqUser =>
      let m := default "gpt-3.5-turbo"%string (model body) in
      let rt := default "text_generation"%string (requestType body) in
      if negb (isModelAvailable m) then (ModelNotFound400, w)
      else
        let requiredCredits :=
          calculateCredits (Number.ofZ (estimatedTokens (prompt body))) m in
        if Number.ltb (Number.ofZ (UserModel.credits reqUser)) requiredCredits
        then (InsufficientCredits402 requiredCredits (UserModel.credits reqUser), w)
        else
          let id := length (aiLogs w) in
          let aiLog :=
            {| AILogModel.log_user := uid;
               AILogModel.log_requestType := rt;
               AILogModel.log_model := m;
               AILogModel.log_status := AILogModel.processing;
               AILogModel.log_processingTime := None;
               AILogModel.log_credits := None |} in
          match saveAILog w id aiLog with
          | Throw _ => catchBlock w id aiLog
          | Return w1 =>
              let preparedPrompt := Prompting.preparePrompt (prompt body) rt in
              match callRealAI preparedPrompt m with
              | (Failed _, calls) => catchBlock (called w1 calls) id aiLog
              | (Answered response tokensTotal processingTime, calls) =>
                  let w2 := called w1 calls in
                  let actualCredits := calculateCredits (Number.ofZ tokensTotal) m in
                  (* req.user.deductCredits(actualCredits): an amount that
                     is no integer is NaN or Infinity, and the method
                     throws or its save fails the cast *)
                  match Number.toZ actualCredits with
                  | None => catchBlock w2 id aiLog
                  | Some cost =>
                      match deductCredits reqUser cost with
                      | Throw _ => catchBlock w2 id aiLog
                      | Return reqUser' =>
                          let w3 := stored w2 (saveUser (db w2) uid reqUser') in
                          (* transaction.save(): aiUsage.requestType is an enum *)
                          if negb (bool_decide (rt ∈ aiUsageRequestTypeEnum))
                          then catchBlock w3 id aiLog
                          else
                            let w4 :=
                              stored w3
                                (createTransaction (db w3)
                                   (usageTransaction uid cost now)) in
                            let completedLog :=
                              AILogModel.markCompleted aiLog processingTime in
                            match saveAILog w4 id completedLog with
                            | Throw _ => catchBlock w4 id completedLog
                            | Return w5 =>
                                let costedLog :=
                                  AILogModel.setCost completedLog actualCredits in
                                match saveAILog w5 id costedLog with
                                | Throw _ => catchBlock w5 id costedLog
                                | Return w6 =>
                                    (Generated200 cost
                                       (UserModel.credits reqUser' - cost), w6)
                                end
                            end
                      end
                  end
              end
          end
  end.

End Handler.

End AI.

(** ** Sequences of balance operations on one account *)

Module Ledger.
Import UserModel.

(** The three ways the sources change [user.credits]. *)
Inductive Op :=
  | Debit (amount : Z)         (* user.deductCredits(amount) *)
  | Credit (amount : Z)        (* user.addCredits(amount) *)
  | Clawback (txCredits : Z).  (* refund route, transaction.credits *)

(** One operation; a rejected debit and a skipped clawback leave the
    account as it was. *)
Definition step (u : User) (op : Op) : User :=
  match op with
  | Debit amount =>
      match deductCredits u amount with
      | Return u' => u'
      | Throw _ => u
      end
  | Credit amount => addCredits u amount
  | Clawback txCredits =>
      match Admin.clawback u txCredits with
      | Some u' => u'
      | None => u
      end
  end.

(** The account after each operation of the sequence, in order. *)
Fixpoint trace (u : User) (ops : list Op) : list User :=
  match ops with
  | [] => []
  | op :: rest => step u op :: trace (step u op) rest
  end.


(** Credits are granted for non-negative amounts ([transaction.credits]
    has [min: 0], the admin grant has [isInt({ min: 1 })]). *)
Definition wellFormed (op : Op) : Prop :=
  match op with
  | Credit amount => 0 <= amount
  | _ => True
  end.


End Ledger.

(** ** Concrete stores used to run the handlers *)

Module Scenario.
Import UserModel TransactionModel Store.

(** The "premium" purchase of user 0: 500 credits + 100 bonus, pending. *)
Definition premiumPurchase : Transaction := {|
  user := 0%nat;
  type := credit_purchase;
  status := pending;
  amount := 3999 # 100;
  credits := 600;
  paymentIntentId := Some "pi_1"%string;
  refund := noRefund;
  completedAt := None;
  failedAt := None;
  failureReason := None
|}.

(** A store with one fresh user (id 0, balance 10) and that purchase. *)
Definition premiumStore : DB := {|
  users := {[ 0%nat := newUser None ]};
  transactions := [premiumPurchase]
|}.

(** The payment intent of the purchase, as the webhook carries it. *)
Definition pi_1 : Payments.PaymentIntent :=
  {| Payments.id := "pi_1"; Payments.last_payment_error := None |}.

(** The store after the purchase has been settled at time 1: user 0 holds
    610 credits and the purchase is completed. *)
Definition settledStore : DB := Payments.handlePaymentSuccess premiumStore pi_1 1.

(** A store whose only user has spent everything. *)
Definition emptyHanded : DB := {|
  users := {[ 0%nat := {| UserModel.credits := 0; totalCreditsUsed := 10;
                          totalCreditsPurchased := 0; isActive := true |} ]};
  transactions := []
|}.

(** A fresh user, no transaction, no AI log, no provider call so far. *)
Definition freshWorld : AI.World := {|
  AI.db := {| users := {[ 0%nat := newUser None ]}; transactions := [] |};
  AI.aiLogs := [];
  AI.providerCalls := 0
|}.

Definition brokeWorld : AI.World := {|
  AI.db := emptyHanded;
  AI.aiLogs := [];
  AI.providerCalls := 0
|}.

(** A short chat prompt for the default model. *)
Definition hello : AI.GenerateBody :=
  {| AI.prompt := "hi"; AI.model := None;
     AI.requestType := Some "chat"%string |}.


End Scenario.

(** ** Catalog queries ([config/ai.js]) *)

Module Catalog.
Import Pricing.

(** What [getModelInfo] returns: [{ ...modelConfig, provider }].  The
    spread copies the fields of a configuration; an inherited member has
    no enumerable property of its own, so it contributes none. *)
Record ModelInfo := {
  info_config : option ModelConfig;
  info_provider : string
}.

(** One value of [getAllModels()]:
    [{ ...modelConfig, provider, available: !!config.apiKey }]. *)
Record ModelListing := {
  listing_config : ModelConfig;
  listing_provider : string;
  listing_available : bool
}.

Section Queries.

Variables (OPENAI_API_KEY ANTHROPIC_API_KEY : option string).

(** [function getModelInfo(model)] *)
Definition getModelInfo (model : string) : option ModelInfo :=
  match getProviderForModel OPENAI_API_KEY ANTHROPIC_API_KEY model with
  | None => None
  | Some provider =>
      Some {|
        info_config :=
          match modelConfigOf OPENAI_API_KEY ANTHROPIC_API_KEY provider model with
          | Obj.Own modelConfig => Some modelConfig
          | Obj.Inherited | Obj.Undefined => None
          end;
        info_provider := provider
      |}
  end.

(** The inner loop of [getAllModels]: every model of one provider is
    written into [models] under its id, over whatever was there. *)
Definition listProvider (acc : gmap string ModelListing)
    (entry : string * ProviderConfig) : gmap string ModelListing :=
  ((λ modelConfig,
      {| listing_config := modelConfig;
         listing_provider := entry.1;
         listing_available := AI.hasApiKey entry.2 |})
   <$> models entry.2) ∪ acc.

(** [function getAllModels()] *)
Definition getAllModels : gmap string ModelListing :=
  foldl listProvider ∅ (AI_PROVIDERS OPENAI_API_KEY ANTHROPIC_API_KEY).

End Queries.

End Catalog.

(** ** Request validation ([validateAIRequest], [src/unnamed/part_000]) *)

Module Validation.

(** [body('model').optional().isIn([...])] *)
Definition allowedModels : list string :=
  ["gpt-4"; "gpt-3.5-turbo"; "claude-3"; "gemini-pro"; "custom-hacking-ai"]%string.

(** [body('requestType').isIn([...])] *)
Definition allowedRequestTypes : list string :=
  ["text_generation"; "code_generation"; "image_analysis"; "chat";
   "hacking_tools"; "vulnerability_scan"; "penetration_test"]%string.

End Validation.

(** ** Credit purchases ([routes/payments.js]) *)

Module Purchases.
Import UserModel TransactionModel Store.

(** One entry of [creditPackages]. *)
Record Package := {
  pkg_name : string;
  pkg_credits : Z;
  pkg_price : Q;
  pkg_currency : string;
  pkg_bonus : option Z
}.

(** [const creditPackages = {...}] *)
Definition creditPackages : gmap string Package :=
  <["basic"%string :=
      {| pkg_name := "Pacote Básico"; pkg_credits := 100; pkg_price := 999 # 100;
         pkg_currency := "BRL"; pkg_bonus := None |}]>
  (<["premium"%string :=
      {| pkg_name := "Pacote Premium"; pkg_credits := 500; pkg_price := 3999 # 100;
         pkg_currency := "BRL"; pkg_bonus := Some 100 |}]>
  (<["enterprise"%string :=
      {| pkg_name := "Pacote Enterprise"; pkg_credits := 1000; pkg_price := 6999 # 100;
         pkg_currency := "BRL"; pkg_bonus := Some 300 |}]>
  (<["mega"%string :=
      {| pkg_name := "Pacote Mega"; pkg_credits := 2500; pkg_price := 14999 # 100;
         pkg_currency := "BRL"; pkg_bonus := Some 1000 |}]> ∅))).

(** [packageInfo.credits + (packageInfo.bonus || 0)] *)
Definition creditsGranted (packageInfo : Package) : Z :=
  pkg_credits packageInfo + default 0 (pkg_bonus packageInfo).

(** [Math.round(packageInfo.price * 100)], the amount in cents sent to the
    payment provider. *)
Definition stripeAmount (packageInfo : Package) : Z :=
  Qfloor (pkg_price packageInfo * inject_Z 100 + (1 # 2)).

(** [packageInfo.currency.toLowerCase()], on the ASCII letters currency
    codes are written in. *)
Fixpoint toLowerCase (s : string) : string :=
  match s with
  | EmptyString => EmptyString
  | String c rest =>
      let code := Ascii.nat_of_ascii c in
      String
        (if (65 <=? code)%nat && (code <=? 90)%nat
         then Ascii.ascii_of_nat (code + 32) else c)
        (toLowerCase rest)
  end.

(** The responses of [POST /create-payment-intent]. *)
Inductive IntentResponse :=
  | IntentUnauthorized401    (* authenticateToken: no such user *)
  | IntentInvalid400         (* 'Dados inválidos' *)
  | IntentCreated (paymentIntentId : string) (transactionId : nat)
  | IntentError500.          (* 'Erro interno do servidor' *)

(** [req.body] of [POST /create-payment-intent]. *)
Record IntentBody := {
  package : string;
  paymentMethod : option string
}.

(** [body('package').isIn(Object.keys(creditPackages))] and
    [body('paymentMethod').optional().isIn(['card', 'pix'])] *)
Definition validIntentBody (body : IntentBody) : bool :=
  bool_decide (is_Some (creditPackages !! package body)) &&
  match paymentMethod body with
  | Some m => bool_decide (m ∈ ["card"; "pix"]%string)
  | None => true
  end.

(** The pending transaction of a purchase. *)
Definition purchaseTransaction (uid : nat) (packageInfo : Package)
    (intentId : string) : Transaction := {|
  user := uid; type := credit_purchase; status := pending;
  amount := pkg_price packageInfo;
  credits := creditsGranted packageInfo;
  paymentIntentId := Some intentId;
  refund := noRefund;
  completedAt := None; failedAt := None; failureReason := None
|}.

(** The handler of [POST /create-payment-intent] for the authenticated
    user [uid].  [stripe amount currency] stands for the calls to the
    payment provider: the id of the intent it creates, or [None] when a
    call throws.  [transaction.save()] throws for a package name outside
    the [package] enum of the Transaction schema; the intent has been
    created by then. *)
Definition createPaymentIntent (stripe : Z -> string -> option string)
    (db : DB) (uid : nat) (body : IntentBody) : IntentResponse * DB :=
  match users db !! uid with
  | None => (IntentUnauthorized401, db)
  | Some _ =>
      if negb (validIntentBody body) then (IntentInvalid400, db)
      else
        match creditPackages !! package body with
        | None => (IntentInvalid400, db)   (* 'Pacote não encontrado' *)
        | Some packageInfo =>
            match stripe (stripeAmount packageInfo)
                    (toLowerCase (pkg_currency packageInfo)) with
            | None => (IntentError500, db)
            | Some intentId =>
                if bool_decide (package body ∈ packageEnum) then
                  (IntentCreated intentId (length (transactions db)),
                   createTransaction db
                     (purchaseTransaction uid packageInfo intentId))
                else (IntentError500, db)
            end
        end
  end.

(** The responses of [POST /confirm-payment]. *)
Inductive ConfirmResponse :=
  | ConfirmInvalid400        (* 'Dados inválidos' *)
  | ConfirmNotFound404       (* 'Transação não encontrada' *)
  | AlreadyProcessed400      (* 'Transação já foi processada' *)
  | Confirmed200 (creditsAdded newBalance : Z)
  | NotConfirmed400 (paymentStatus : string)   (* 'Pagamento não foi confirmado' *)
  | ConfirmError500.         (* 'Erro interno do servidor' *)

(** [Transaction.findOne({ _id: transactionId, user: req.user._id,
      'paymentProvider.paymentIntentId': paymentIntentId })] *)
Definition findOwnTransaction (db : DB) (uid : nat) (transactionId : nat)
    (intentId : string) : option Transaction :=
  match transactions db !! transactionId with
  | Some tx =>
      if bool_decide (user tx = uid) && bool_decide (paymentIntentId tx = Some intentId)
      then Some tx else None
  | None => None
  end.

(** The handler of [POST /confirm-payment] for the authenticated user
    [uid].  [stripeStatus] is the status of the intent as the payment
    provider reports it, or [None] when the call throws. *)
Definition confirmPayment (stripeStatus : option string) (db : DB) (uid : nat)
    (intentId : string) (transactionId : nat) (now : Z) : ConfirmResponse * DB :=
  if bool_decide (intentId = ""%string) then (ConfirmInvalid400, db)
  else
    match findOwnTransaction db uid transactionId intentId with
    | None => (ConfirmNotFound404, db)
    | Some transaction =>
        if bool_decide (status transaction = completed) then (AlreadyProcessed400, db)
        else
          match stripeStatus with
          | None => (ConfirmError500, db)
          | Some st =>
              if bool_decide (st = "succeeded"%string) then
                match users db !! uid with
                | None => (ConfirmError500, db)
                | Some u =>
                    let u' := addCredits u (TransactionModel.credits transaction) in
                    let db1 := saveUser db uid u' in
                    (Confirmed200 (TransactionModel.credits transaction)
                       (UserModel.credits u'),
                     saveTransaction db1 transactionId (markCompleted transaction now))
                end
              else
                (NotConfirmed400 st,
                 saveTransaction db transactionId
                   (markFailed transaction
                      ("Pagamento não foi bem-sucedido: " +:+ st) now))
          end
    end.

(** [req.body.credits] as the client sent it, a JSON number or a JSON
    string; the handler passes it on as it is. *)
Inductive BodyCredits :=
  | CreditsNumber (n : Z)
  | CreditsString (s : string).

(** The numerals [isInt] accepts: an optional sign, then [0] alone or a
    digit from 1 to 9 followed by digits. *)
Definition intNumeral (s : string) : bool :=
  let unsigned :=
    match s with
    | String c rest =>
        let code := Ascii.nat_of_ascii c in
        if (code =? 45)%nat || (code =? 43)%nat then rest else s
    | EmptyString => s
    end in
  match unsigned with
  | EmptyString => false
  | String c rest =>
      if (Ascii.nat_of_ascii c =? 48)%nat then bool_decide (rest = EmptyString)
      else bool_decide (is_Some (digits unsigned))
  end.

(** [body('credits').isInt({ min: 1 })].  The validator reads the value as
    a string, a number printed first (in full below 10^21): a decimal
    integer, with or without a sign and without leading zeros, of value at
    least 1. *)
Definition validCredits (credits : BodyCredits) : bool :=
  match credits with
  | CreditsNumber n => (1 <=? n) && (n <? 10 ^ 21)
  | CreditsString s =>
      intNumeral s &&
      match castNumber s with
      | Some v => 1 <=? v
      | None => false
      end
  end.

(** [await user.addCredits(credits)] *)
Definition addCreditsBody (u : User) (credits : BodyCredits) : Result User :=
  match credits with
  | CreditsNumber n => Return (addCredits u n)
  | CreditsString s => addCreditsString u s
  end.

(** [credits] as the Number field of the new Transaction holds it. *)
Definition creditsValue (credits : BodyCredits) : option Z :=
  match credits with
  | CreditsNumber n => Some n
  | CreditsString s => castNumber s
  end.

(** The responses of [POST /admin/add-credits]. *)
Inductive GrantResponse :=
  | GrantInvalid400          (* 'Dados inválidos' *)
  | GrantUserNotFound404     (* 'Usuário não encontrado' *)
  | Granted200 (newBalance : Z) (creditsAdded : BodyCredits)
  | GrantError500.           (* 'Erro interno do servidor' *)

(** The bonus transaction of an admin grant. *)
Definition grantTransaction (userId : nat) (credits : Z) (now : Z) : Transaction := {|
  user := userId; type := bonus; status := completed;
  amount := 0; credits := credits;
  paymentIntentId := None; refund := noRefund;
  completedAt := Some now; failedAt := None; failureReason := None
|}.

(** The handler of [POST /admin/add-credits], after [authorize('admin')];
    the validators are [body('credits').isInt({ min: 1 })] and
    [body('reason').notEmpty()]. *)
Definition adminAddCredits (db : DB) (userId : nat) (credits : BodyCredits)
    (reason : string) (now : Z) : GrantResponse * DB :=
  if negb (validCredits credits && negb (bool_decide (reason = ""%string)))
  then (GrantInvalid400, db)
  else
    match users db !! userId with
    | None => (GrantUserNotFound404, db)
    | Some u =>
        match addCreditsBody u credits, creditsValue credits with
        | Return u', Some n =>
            (Granted200 (UserModel.credits u') credits,
             createTransaction (saveUser db userId u')
               (grantTransaction userId n now))
        | _, _ => (GrantError500, db)
        end
    end.

End Purchases.

(** ** Login lockout (the User model and [POST /login]) *)

Module Login.

(** The lockout fields of [userSchema].  A field removed by [$unset] reads
    as its schema default ([0], [null]) when the document is loaded. *)
Record LoginFields := {
  loginAttempts : Z;
  lockUntil : option Z
}.

(** [userSchema.virtual('isLocked')]:
    [!!(this.lockUntil && this.lockUntil > Date.now())] *)
Definition isLocked (this : LoginFields) (now : Z) : bool :=
  match lockUntil this with
  | Some t => now <? t
  | None => false
  end.

(** [userSchema.methods.incLoginAttempts]: the document after the
    [updateOne] it issues. *)
Definition incLoginAttempts (this : LoginFields) (now : Z) : LoginFields :=
  match lockUntil this with
  | Some t =>
      if t <? now then {| loginAttempts := 1; lockUntil := None |}
      else
        {| loginAttempts := loginAttempts this + 1;
           lockUntil :=
             if (5 <=? loginAttempts this + 1) && negb (isLocked this now)
             then Some (now + 2 * 60 * 60 * 1000)
             else lockUntil this |}
  | None =>
      {| loginAttempts := loginAttempts this + 1;
         lockUntil :=
           if (5 <=? loginAttempts this + 1) && negb (isLocked this now)
           then Some (now + 2 * 60 * 60 * 1000)
           else lockUntil this |}
  end.

(** The schema defaults of the two fields: a new account. *)
Definition newLogin : LoginFields :=
  {| loginAttempts := 0; lockUntil := None |}.

(** [userSchema.methods.resetLoginAttempts] *)
Definition resetLoginAttempts (this : LoginFields) : LoginFields :=
  {| loginAttempts := 0; lockUntil := None |}.

(** The responses of [POST /login] once the user has been found. *)
Inductive LoginResponse :=
  | Locked423               (* 'Conta bloqueada temporariamente ...' *)
  | InvalidCredentials401   (* 'Credenciais inválidas' *)
  | Deactivated401          (* 'Conta desativada' *)
  | LoggedIn200.            (* 'Login realizado com sucesso' *)

(** The handler of [POST /login] for a user that exists:
    [passwordValid] is the outcome of [comparePassword], [active] the
    user's [isActive]. *)
Definition login (this : LoginFields) (active passwordValid : bool) (now : Z)
  : LoginResponse * LoginFields :=
  if isLocked this now then (Locked423, this)
  else if negb passwordValid then (InvalidCredentials401, incLoginAttempts this now)
  else if negb active then (Deactivated401, this)
  else (LoggedIn200, resetLoginAttempts this).

(** A lock is only ever set with at least five failures on record, and
    the count is never negative. *)
Definition lockJustified (s : LoginFields) : Prop :=
  0 <= loginAttempts s ∧ (is_Some (lockUntil s) → 5 <= loginAttempts s).

(** One login attempt of a sequence: the clock reading and whether the
    password was right. *)
Definition Attempt : Type := Z * bool.

(** The lockout fields after a sequence of login attempts on an active
    account. *)
Definition attempts (this : LoginFields) (l : list Attempt) : LoginFields :=
  fold_left (λ s a, (login s true a.2 a.1).2) l this.

End Login.

(** ** Subscription gate ([middleware/auth.js]) *)

Module Middleware.

(** [const levels = { 'basic': 1, 'premium': 2, 'enterprise': 3 }] *)
Definition levels : gmap string Z :=
  <["basic"%string := 1]> (<["premium"%string := 2]> (<["enterprise"%string := 3]> ∅)).

(** [subscription.type: enum ['none', 'basic', 'premium', 'enterprise']]
    of [userSchema]. *)
Inductive SubscriptionType := sub_none | sub_basic | sub_premium | sub_enterprise.

(** [subscription.status: enum ['active', 'inactive', 'cancelled',
    'expired']] of [userSchema]. *)
Inductive SubscriptionStatus := active | inactive | cancelled | expired.

#[global] Instance SubscriptionStatus_eq_dec : EqDecision SubscriptionStatus.
Proof. solve_decision. Defined.

(** The string a subscription type is stored as. *)
Definition typeName (type : SubscriptionType) : string :=
  match type with
  | sub_none => "none"
  | sub_basic => "basic"
  | sub_premium => "premium"
  | sub_enterprise => "enterprise"
  end.

(** [levels[key] || fallback]: a level other than 0 is itself, a missing
    entry gives the fallback, and an inherited member, which is truthy, is
    itself and no number ([None]). *)
Definition levelOr (key : string) (fallback : Z) : option Z :=
  match Obj.get levels key with
  | Obj.Own n => Some (if n =? 0 then fallback else n)
  | Obj.Inherited => None
  | Obj.Undefined => Some fallback
  end.

(** [a < b]: false when an operand is no number. *)
Definition lessThan (a b : option Z) : bool :=
  match a, b with
  | Some x, Some y => x <? y
  | _, _ => false
  end.

(** [req.user.subscription]: its [type] and [status]. *)
Record Subscription := {
  sub_type : SubscriptionType;
  sub_status : SubscriptionStatus
}.

(** What a middleware does with a request. *)
Inductive Outcome :=
  | Next
  | Unauthenticated401
  | PaymentRequired402
  | Forbidden403.

(** [const checkSubscription = (requiredLevel = 'basic') => (req, res, next) => ...] *)
Definition checkSubscription (requiredLevel : string)
    (user : option Subscription) : Outcome :=
  match user with
  | None => Unauthenticated401
  | Some subscription =>
      let userLevel := levelOr (typeName (sub_type subscription)) 0 in
      let requiredLevelNum := levelOr requiredLevel 1 in
      if lessThan userLevel requiredLevelNum ||
         negb (bool_decide (sub_status subscription = active))
      then Forbidden403 else Next
  end.

(** [const checkCredits = (requiredCredits = 1) => (req, res, next) => ...] *)
Definition checkCredits (requiredCredits : Z) (user : option UserModel.User)
  : Outcome :=
  match user with
  | None => Unauthenticated401
  | Some u =>
      if UserModel.credits u <? requiredCredits then PaymentRequired402 else Next
  end.

End Middleware.

(** ** Messaging (the messaging configuration stored with [config/ai.js]) *)

Module Messaging.

(** What [sendSMS] resolves to. *)
Record SmsReceipt := {
  messageId : string;
  status : string;
  to : string
}.

(** The outcome of one [sendSMS] call. *)
Inductive SendOutcome :=
  | Sent (receipt : SmsReceipt)
  | SendError (message : string).

(** [async function sendSMS(to, message, options)].  [twilio] is the
    configured client ([None] when the credentials are missing); it
    answers with a receipt or with the message of the error it throws. *)
Definition sendSMS (twilio : option (string -> string -> SmsReceipt + string))
    (to message : string) : SendOutcome :=
  match twilio with
  | None => SendError "Twilio não configurado. Verifique as credenciais."
  | Some client =>
      match client to message with
      | inl receipt => Sent receipt
      | inr e => SendError ("Falha no envio de SMS: " +:+ e)
      end
  end.

(** What [sendBulkSMS] returns. *)
Record BulkResult := {
  success : bool;
  totalSent : nat;
  totalErrors : nat;
  results : list (string * SmsReceipt);   (* recipient, receipt *)
  errors : list (string * string)         (* recipient, error *)
}.

(** The loop of [sendBulkSMS] over the recipients' phone numbers: the
    [results] and [errors] arrays after it. *)
Fixpoint bulkLoop (send : nat -> string -> SendOutcome) (n : nat)
    (recipients : list string)
    (results : list (string * SmsReceipt)) (errors : list (string * string))
  : list (string * SmsReceipt) * list (string * string) :=
  match recipients with
  | [] => (results, errors)
  | phone :: rest =>
      match send n phone with
      | Sent receipt =>
          bulkLoop send (S n) rest (results ++ [(phone, receipt)]) errors
      | SendError e =>
          bulkLoop send (S n) rest results (errors ++ [(phone, e)])
      end
  end.

(** [async function sendBulkSMS(recipients, message, options)].  The
    client may answer the [n]-th call of the loop in its own way. *)
Definition sendBulkSMS
    (twilio : option (nat -> string -> string -> SmsReceipt + string))
    (recipients : list string) (message : string) : BulkResult :=
  let '(results, errors) :=
    bulkLoop (λ n phone, sendSMS ((λ client, client n) <$> twilio) phone message)
      0%nat recipients [] [] in
  {| success := bool_decide (length errors = 0%nat);
     totalSent := length results;
     totalErrors := length errors;
     results := results;
     errors := errors |}.

(** One element of the array given to [getMessagingStats]. *)
Record SendReport := {
  report_success : bool;
  report_status : string
}.

(** The [stats] object of [getMessagingStats]. *)
Record Stats := {
  total : nat;
  sent : nat;
  failed : nat;
  pending : nat;
  delivered : nat
}.

(** The body of [results.forEach(result => ...)]. *)
Definition countReport (stats : Stats) (result : SendReport) : Stats :=
  if report_success result then
    {| total := total stats;
       sent := S (sent stats);
       failed := failed stats;
       pending :=
         if bool_decide (report_status result = "delivered"%string) then pending stats
         else if bool_decide (report_status result = "sent"%string) ||
                 bool_decide (report_status result = "queued"%string)
              then S (pending stats) else pending stats;
       delivered :=
         if bool_decide (report_status result = "delivered"%string)
         then S (delivered stats) else delivered stats |}
  else
    {| total := total stats; sent := sent stats; failed := S (failed stats);
       pending := pending stats; delivered := delivered stats |}.

(** [function getMessagingStats(results)] *)
Definition getMessagingStats (results : list SendReport) : Stats :=
  fold_left countReport results
    {| total := length results; sent := 0; failed := 0; pending := 0;
       delivered := 0 |}.

(** [\d]: the characters '0' to '9'. *)
Definition isDigit (c : Ascii.ascii) : bool :=
  (48 <=? Ascii.nat_of_ascii c)%nat && (Ascii.nat_of_ascii c <=? 57)%nat.

(** [phone.replace(/\D/g, '')] *)
Fixpoint digitsOf (s : string) : string :=
  match s with
  | EmptyString => EmptyString
  | String c rest => if isDigit c then String c (digitsOf rest) else digitsOf rest
  end.

(** What [validatePhoneNumber] returns. *)
Inductive PhoneCheck :=
  | ValidPhone (formatted : string)
  | InvalidPhone.           (* 'Número muito curto' *)

(** [function validatePhoneNumber(phone)] *)
Definition validatePhoneNumber (phone : string) : PhoneCheck :=
  let cleanPhone := digitsOf phone in
  if (String.length cleanPhone <? 10)%nat then InvalidPhone
  else
    let formattedPhone :=
      if negb (String.prefix "55" cleanPhone) &&
         (String.length cleanPhone =? 11)%nat
      then ("55" +:+ cleanPhone)%string else cleanPhone in
    ValidPhone ("+" +:+ formattedPhone)%string.

End Messaging.

(** ** The API as a whole: one request after another *)

Module Api.
Import UserModel TransactionModel Store.

(** A request that reaches a handler of the ledger, with the clock reading
    and, where the handler asks the payment provider, what it answered. *)
Inductive Request :=
  | Register (now : Z)
  | Generate (uid : nat) (body : AI.GenerateBody) (now : Z)
  | Webhook (event : Payments.Event) (now : Z)
  | CreatePaymentIntent (uid : nat) (body : Purchases.IntentBody)
      (intentId : option string)
  | ConfirmPayment (uid : nat) (intentId : string) (transactionId : nat)
      (stripeStatus : option string) (now : Z)
  | AdminAddCredits (userId : nat) (credits : Purchases.BodyCredits)
      (reason : string) (now : Z)
  | Refund (id : nat) (body : Admin.RefundBody) (now : Z).

Section Server.

Variables (OPENAI_API_KEY ANTHROPIC_API_KEY : option string).
Variable provider : string -> string -> string -> AI.ProviderAnswer.

(** [parseInt(process.env.DEFAULT_CREDITS)] *)
Variable env : option Z.

(** The store of a world replaced by another one. *)
Definition withDb (w : AI.World) (db' : DB) : AI.World :=
  {| AI.db := db'; AI.aiLogs := AI.aiLogs w;
     AI.providerCalls := AI.providerCalls w |}.

(** The world after one request; a new user gets an id no stored user
    has. *)
Definition serve (w : AI.World) (request : Request) : AI.World :=
  match request with
  | Register now =>
      withDb w (Auth.register (AI.db w) env (fresh (dom (users (AI.db w)))) now)
  | Generate uid body now =>
      (AI.generate OPENAI_API_KEY ANTHROPIC_API_KEY provider w uid body now).2
  | Webhook event now => withDb w (Payments.webhook (AI.db w) event now)
  | CreatePaymentIntent uid body intentId =>
      withDb w (Purchases.createPaymentIntent (λ _ _, intentId) (AI.db w) uid body).2
  | ConfirmPayment uid intentId transactionId stripeStatus now =>
      withDb w
        (Purchases.confirmPayment stripeStatus (AI.db w) uid intentId
           transactionId now).2
  | AdminAddCredits userId credits reason now =>
      withDb w (Purchases.adminAddCredits (AI.db w) userId credits reason now).2
  | Refund id body now => withDb w (Admin.refundRoute (AI.db w) id body now).2
  end.

(** The world after a sequence of requests. *)
Definition serveAll (w : AI.World) (requests : list Request) : AI.World :=
  fold_left serve requests w.

End Server.

(** What no handler changes in a stored transaction: its owner, kind,
    money amount, credits and payment intent; and a refund flag once set
    stays set. *)
Definition sameEntry (tx tx' : Transaction) : Prop :=
  user tx' = user tx ∧ type tx' = type tx ∧
  amount tx' = amount tx ∧
  TransactionModel.credits tx' = TransactionModel.credits tx ∧
  paymentIntentId tx' = paymentIntentId tx ∧
  (isRefunded (refund tx) = true → isRefunded (refund tx') = true).

(** Every transaction of [db] is still in [db'], at the same position and
    with the same identity. *)
Definition ledgerKept (db db' : DB) : Prop :=
  ∀ i tx, transactions db !! i = Some tx →
    ∃ tx', transactions db' !! i = Some tx' ∧ sameEntry tx tx'.




End Api.

(** ** More concrete stores and requests *)

Module Scenario2.
Import UserModel TransactionModel Store.


(** A provider that answers with 42 tokens. *)
Definition answering (p prompt model : string) : AI.ProviderAnswer :=
  AI.Answered "ok" 42 7.

(** A request for the premium package. *)
Definition buyPremium : Purchases.IntentBody :=
  {| Purchases.package := "premium"; Purchases.paymentMethod := None |}.

(** A request for the mega package, paid by card. *)
Definition buyMega : Purchases.IntentBody :=
  {| Purchases.package := "mega"; Purchases.paymentMethod := Some "card"%string |}.

(** A payment provider that opens the intent "pi_2". *)
Definition stripePi2 (amount : Z) (currency : string) : option string :=
  Some "pi_2"%string.

(** The settled premium purchase and its owner in [Scenario.settledStore]. *)
Definition settledPurchase : Transaction :=
  markCompleted Scenario.premiumPurchase 1.

Definition settledOwner : User := addCredits (newUser None) 600.

(** A refund request without an amount. *)
Definition refundAll : Admin.RefundBody :=
  {| Admin.reason := "duplicate charge"; Admin.amount := None |}.

(** A day of traffic: a registration, a purchase and its webhook, a
    generation, a grant. *)
Definition traffic : list Api.Request :=
  [Api.Register 1;
   Api.CreatePaymentIntent 0 buyPremium (Some "pi_2"%string);
   Api.Webhook
     (Payments.payment_intent_succeeded
        {| Payments.id := "pi_2"; Payments.last_payment_error := None |}) 2;
   Api.Generate 0 Scenario.hello 3;
   Api.AdminAddCredits 0 (Purchases.CreditsNumber 5) "gift" 4].

End Scenario2.

(** * Theorems *)

(** ** JavaScript values *)

Module NumberLiterals.
Import PrimFloat FloatOps.

(** The prices of the catalog are the values the kernel's binary64
    parser gives the literals of [config/ai.js], and the product that
    prices 1000 gpt-4 tokens is the one its binary64 multiplication
    computes. *)
#[warnings="-inexact-float"]
Lemma decimal_is_the_literal :
  Prim2SF 0.00003 = Number.decimal 3 5 ∧
  Prim2SF 0.000002 = Number.decimal 2 6 ∧
  Prim2SF 0.000015 = Number.decimal 15 6 ∧
  Prim2SF (1000 * 0.00003 * 100) =
    Number.mul (Number.mul (Number.ofZ 1000) (Number.decimal 3 5)) (Number.ofZ 100).
Proof. split_and!; reflexivity. Qed.

End NumberLiterals.

(** A product with [NaN] is [NaN]. *)
Lemma mul_NaN_r (x : Number.t) : Number.mul x Number.NaN = Number.NaN.
Proof. by destruct x. Qed.

Lemma mul_NaN_l (x : Number.t) : Number.mul Number.NaN x = Number.NaN.
Proof. done. Qed.

(** [Math.max] of a Number and [NaN] is [NaN]. *)
Lemma max_NaN_r (x : Number.t) : Math.max x Number.NaN = Number.NaN.
Proof. by destruct x. Qed.

(** ** Pricing policy *)

Section PricingFacts.
Import Pricing.

Variables (OPENAI_API_KEY ANTHROPIC_API_KEY : option string).

Abbreviation AI_PROVIDERS :=
  (Pricing.AI_PROVIDERS OPENAI_API_KEY ANTHROPIC_API_KEY).
Abbreviation getProviderForModel :=
  (Pricing.getProviderForModel OPENAI_API_KEY ANTHROPIC_API_KEY).
Abbreviation modelConfigOf :=
  (Pricing.modelConfigOf OPENAI_API_KEY ANTHROPIC_API_KEY).
Abbreviation calculateCredits :=
  (Pricing.calculateCredits OPENAI_API_KEY ANTHROPIC_API_KEY).
Abbreviation isModelAvailable :=
  (Pricing.isModelAvailable OPENAI_API_KEY ANTHROPIC_API_KEY).
Abbreviation inCatalog :=
  (Pricing.inCatalog OPENAI_API_KEY ANTHROPIC_API_KEY).

(** A property read is undefined exactly when the key is neither an own
    key nor an inherited name. *)
Lemma get_Undefined {A : Type} (o : gmap string A) (key : string) :
  Obj.get o key = Obj.Undefined ↔ o !! key = None ∧ key ∉ Obj.inherited.
Proof.
  unfold Obj.get. destruct (o !! key) as [a |].
  - split; [done | by intros [? _]].
  - case_bool_decide as Hin; split; try done.
    by intros [_ Hout].
Qed.

(** The provider search fails exactly when no catalog lists the model and
    the name is not an inherited one. *)
Lemma findProvider_None (l : list (string * ProviderConfig)) (model : string) :
  findProvider l model = None ↔
  ∀ provider config,
    (provider, config) ∈ l → Obj.get (models config) model = Obj.Undefined.
Proof.
  induction l as [| [p c] rest IH]; simpl.
  - split; [intros _ ? ? H; inversion H | done].
  - destruct (Obj.get (models c) model) eqn:Hc.
    + split; [done |].
      intros H. specialize (H p c (list_elem_of_here _ _)). congruence.
    + split; [done |].
      intros H. specialize (H p c (list_elem_of_here _ _)). congruence.
    + rewrite IH. split.
      * intros H q d [Heq | Hin]%elem_of_cons; [by inversion Heq; subst | eauto].
      * intros H q d Hin. apply (H q d). by apply list_elem_of_further.
Qed.

(** A model of the catalog is found under its own provider, with its own
    configuration. *)
Lemma inCatalog_found (model : string) (modelConfig : ModelConfig) :
  inCatalog model modelConfig →
  ∃ provider,
    getProviderForModel model = Some provider ∧
    modelConfigOf provider model = Obj.Own modelConfig.
Proof.
  intros (p & c & Hin & Hm).
  unfold Pricing.AI_PROVIDERS in Hin.
  apply elem_of_cons in Hin as [Heq | Hin].
  - inversion Heq; subst; clear Heq. unfold openai in Hm; simpl in Hm.
    apply lookup_insert_Some in Hm as [[<- <-] | [_ Hm]].
    { exists "openai"%string. by vm_compute. }
    apply lookup_insert_Some in Hm as [[<- <-] | [_ Hm]].
    { exists "openai"%string. by vm_compute. }
    by rewrite lookup_empty in Hm.
  - apply elem_of_cons in Hin as [Heq | Hin]; [| by inversion Hin].
    inversion Heq; subst; clear Heq. unfold anthropic in Hm; simpl in Hm.
    apply lookup_insert_Some in Hm as [[<- <-] | [_ Hm]].
    { exists "anthropic"%string. by vm_compute. }
    by rewrite lookup_empty in Hm.
Qed.

(** The provider found for a model always holds a member under that name:
    the branch of [costPerTokenOf] for an undefined configuration is
    dead. *)
Lemma calculateCredits_config_found (model provider : string) :
  getProviderForModel model = Some provider →
  modelConfigOf provider model ≠ Obj.Undefined.
Proof.
  unfold Pricing.getProviderForModel, Pricing.modelConfigOf, Pricing.AI_PROVIDERS.
  cbn [findProvider].
  destruct (Obj.get (models (openai OPENAI_API_KEY)) model) eqn:H1.
  - intros [= <-]. cbn [providerConfig]. rewrite String.eqb_refl, H1. done.
  - intros [= <-]. cbn [providerConfig]. rewrite String.eqb_refl, H1. done.
  - destruct (Obj.get (models (anthropic ANTHROPIC_API_KEY)) model) eqn:H2;
      [| | done].
    + intros [= <-]. cbn [providerConfig].
      change (String.eqb "openai" "anthropic") with false.
      cbn iota. rewrite String.eqb_refl, H2. done.
    + intros [= <-]. cbn [providerConfig].
      change (String.eqb "openai" "anthropic") with false.
      cbn iota. rewrite String.eqb_refl, H2. done.
Qed.

(** A name that no catalog lists and that is not inherited has no
    provider. *)
Lemma getProviderForModel_unlisted (model : string) :
  (∀ provider config,
     (provider, config) ∈ AI_PROVIDERS → models config !! model = None) →
  model ∉ Obj.inherited →
  getProviderForModel model = None.
Proof.
  intros Hnone Hown. apply findProvider_None.
  intros p c Hin. apply get_Undefined. split; [by eapply Hnone | done].
Qed.

(** An inherited name is found under the first provider, whose catalog
    holds no configuration for it. *)
Lemma getProviderForModel_inherited (model : string) :
  model ∈ Obj.inherited →
  getProviderForModel model = Some "openai"%string ∧
  modelConfigOf "openai" model = Obj.Inherited.
Proof.
  intros Hin. unfold Obj.inherited in Hin.
  repeat (apply elem_of_cons in Hin as [-> | Hin]; [by vm_compute |]).
  by inversion Hin.
Qed.

(** The price of an inherited name is not a number, whatever the token
    count. *)
Lemma calculateCredits_inherited (tokens : Number.t) (model : string) :
  model ∈ Obj.inherited → calculateCredits tokens model = Number.NaN.
Proof.
  intros Hin. destruct (getProviderForModel_inherited model Hin) as [Hp Hc].
  unfold Pricing.calculateCredits. rewrite Hp, Hc. cbv zeta.
  unfold costPerTokenOf. rewrite mul_NaN_r, mul_NaN_l. reflexivity.
Qed.

(** C10, at the failing input.  ['toString'] is listed by no provider's
    catalog, yet [calculateCredits] does not return 1 for it: it finds the
    method every object inherits, reads no price from it and returns
    [NaN], whatever the token count. *)
Theorem calculateCredits_toString_is_NaN (tokens : Number.t) :
  (∀ provider config,
     (provider, config) ∈ AI_PROVIDERS →
     models config !! "toString"%string = None) ∧
  getProviderForModel "toString" = Some "openai"%string ∧
  calculateCredits tokens "toString" = Number.NaN ∧
  calculateCredits tokens "toString" ≠ Number.ofZ 1.
Proof.
  assert (Hin : "toString"%string ∈ Obj.inherited)
    by (unfold Obj.inherited; set_solver).
  split_and!.
  - intros p c [Heq | Hin']%elem_of_cons.
    + by inversion Heq; subst.
    + apply elem_of_cons in Hin' as [Heq | Hin']; [| by inversion Hin'].
      by inversion Heq; subst.
  - by apply getProviderForModel_inherited.
  - by apply calculateCredits_inherited.
  - by rewrite calculateCredits_inherited.
Qed.

(** X30.  A model name that no provider's catalog lists and that is not
    one of the names every object inherits is not available and costs
    exactly 1 credit, whatever the token count. *)
Theorem calculateCredits_unlisted_model (tokens : Number.t) (model : string) :
  (∀ provider config,
     (provider, config) ∈ AI_PROVIDERS → models config !! model = None) →
  model ∉ Obj.inherited →
  isModelAvailable model = false ∧
  calculateCredits tokens model = Number.ofZ 1.
Proof.
  intros Hnone Hown.
  unfold Pricing.isModelAvailable, Pricing.calculateCredits.
  by rewrite (getProviderForModel_unlisted model Hnone Hown).
Qed.

(** The API keys play no part in the price. *)
Lemma calculateCredits_keys (tokens : Number.t) (model : string) :
  calculateCredits tokens model = Pricing.calculateCredits None None tokens model.
Proof.
  assert (Hconfig : ∀ provider,
            modelConfigOf provider model
            = Pricing.modelConfigOf None None provider model).
  { intros provider. unfold Pricing.modelConfigOf, Pricing.AI_PROVIDERS.
    cbn [providerConfig].
    destruct (String.eqb "openai" provider); [reflexivity |].
    destruct (String.eqb "anthropic" provider); reflexivity. }
  unfold Pricing.calculateCredits.
  change (getProviderForModel model)
    with (Pricing.getProviderForModel None None model).
  destruct (Pricing.getProviderForModel None None model); [| reflexivity].
  by rewrite Hconfig.
Qed.

End PricingFacts.

(** C7, at the failing input.  1000 tokens of gpt-4 are worth 3 cents,
    [ceil(max(1, 1000 * 0.00003 * 100)) = 3] credits at one credit per
    cent; the two binary64 products give 3.0000000000000004 and
    [calculateCredits] returns 4. *)
Theorem calculateCredits_1000_gpt4_tokens :
  Pricing.exactCredits 1000 (3 # 100000) = 3 ∧
  Number.mul (Number.mul (Number.ofZ 1000) (Number.decimal 3 5)) (Number.ofZ 100)
    = S754_finite false 6755399441055745 (-51) ∧
  Number.ofZ 3 = S754_finite false 6755399441055744 (-51) ∧
  Pricing.calculateCredits None None (Number.ofZ 1000) "gpt-4" = Number.ofZ 4.
Proof. split_and!; by vm_compute. Qed.

(** The prices of every token count up to 3000, computed one by one: the
    exact price, and one credit more at 1000 and 2000 tokens of gpt-4 and
    at 2000 tokens of claude-3-sonnet. *)
Lemma prices_up_to_3000 (tokens : Z) :
  0 <= tokens <= 3000 →
  Number.toZ (Pricing.calculateCredits None None (Number.ofZ tokens) "gpt-4")
    = Some (Pricing.exactCredits tokens (3 # 100000)
            + (if bool_decide (tokens ∈ [1000; 2000]) then 1 else 0)) ∧
  Number.toZ (Pricing.calculateCredits None None (Number.ofZ tokens) "gpt-3.5-turbo")
    = Some (Pricing.exactCredits tokens (2 # 1000000)) ∧
  Number.toZ (Pricing.calculateCredits None None (Number.ofZ tokens) "claude-3-sonnet")
    = Some (Pricing.exactCredits tokens (15 # 1000000)
            + (if bool_decide (tokens = 2000) then 1 else 0)).
Proof.
  intros Hrange.
  assert (Hall : forallb
    (λ t,
       bool_decide
         (Number.toZ (Pricing.calculateCredits None None (Number.ofZ t) "gpt-4")
          = Some (Pricing.exactCredits t (3 # 100000)
                  + (if bool_decide (t ∈ [1000; 2000]) then 1 else 0))) &&
       bool_decide
         (Number.toZ
            (Pricing.calculateCredits None None (Number.ofZ t) "gpt-3.5-turbo")
          = Some (Pricing.exactCredits t (2 # 1000000))) &&
       bool_decide
         (Number.toZ
            (Pricing.calculateCredits None None (Number.ofZ t) "claude-3-sonnet")
          = Some (Pricing.exactCredits t (15 # 1000000)
                  + (if bool_decide (t = 2000) then 1 else 0))))
    (seqZ 0 3001) = true) by (vm_compute; reflexivity).
  rewrite forallb_forall in Hall.
  specialize (Hall tokens).
  rewrite <- list_elem_of_In, elem_of_seqZ in Hall.
  specialize (Hall ltac:(lia)).
  apply andb_prop in Hall as [Hall H3]. apply andb_prop in Hall as [H1 H2].
  apply bool_decide_eq_true in H1, H2, H3. done.
Qed.

(** The exact price grows with the token count. *)
Lemma exactCredits_le (tokens1 tokens2 : Z) (usd : Q) :
  (0 <= usd)%Q → tokens1 <= tokens2 →
  Pricing.exactCredits tokens1 usd <= Pricing.exactCredits tokens2 usd.
Proof.
  intros Husd Hle. unfold Pricing.exactCredits.
  apply Qceiling_resp_le, Q.max_le_compat_l.
  apply Qmult_le_compat_r; [| done].
  apply Qmult_le_compat_r; [| done].
  by rewrite <- Zle_Qle.
Qed.

(** The estimate of a prompt of at most 10000 UTF-16 code units lies
    between 500 and 3000 tokens. *)
Lemma estimatedTokens_bounds (prompt : string) :
  Z.of_nat (Utf16.length prompt) <= 10000 →
  500 <= AI.estimatedTokens prompt <= 3000.
Proof.
  intros Hlen. unfold AI.estimatedTokens.
  set (n := Z.of_nat (Utf16.length prompt)).
  assert (Hn : 0 <= n <= 10000) by (unfold n; lia).
  assert (H1 : Qceiling (inject_Z 0 / inject_Z 4) <= Qceiling (inject_Z n / inject_Z 4)).
  { apply Qceiling_resp_le. apply Qmult_le_compat_r; [| done].
    rewrite <- Zle_Qle. lia. }
  assert (H2 : Qceiling (inject_Z n / inject_Z 4)
               <= Qceiling (inject_Z 10000 / inject_Z 4)).
  { apply Qceiling_resp_le. apply Qmult_le_compat_r; [| done].
    rewrite <- Zle_Qle. lia. }
  change (Qceiling (inject_Z 0 / inject_Z 4)) with 0 in H1.
  change (Qceiling (inject_Z 10000 / inject_Z 4)) with 2500 in H2.
  lia.
Qed.

Section PriceBounds.

Variables (OPENAI_API_KEY ANTHROPIC_API_KEY : option string).

Abbreviation priceOf tokens model :=
  (Number.toZ
     (Pricing.calculateCredits OPENAI_API_KEY ANTHROPIC_API_KEY
        (Number.ofZ tokens) model)).

(** X3.  For every token count up to 3000, which is as far as the
    estimate of a prompt of 10000 UTF-16 code units goes, the price of each
    catalog model is an integer, at least 1, and equal to the exact price
    [ceil(max(1, tokens * costPerToken * 100))], but for three token
    counts, where the binary64 products round up and one credit more is
    charged: 1000 and 2000 tokens of gpt-4, and 2000 tokens of
    claude-3-sonnet. *)
Theorem calculateCredits_against_exact_price (tokens : Z) :
  0 <= tokens <= 3000 →
  priceOf tokens "gpt-4"
    = Some (Pricing.exactCredits tokens (3 # 100000)
            + (if bool_decide (tokens ∈ [1000; 2000]) then 1 else 0)) ∧
  priceOf tokens "gpt-3.5-turbo"
    = Some (Pricing.exactCredits tokens (2 # 1000000)) ∧
  priceOf tokens "claude-3-sonnet"
    = Some (Pricing.exactCredits tokens (15 # 1000000)
            + (if bool_decide (tokens = 2000) then 1 else 0)) ∧
  ∀ usd, (0 <= usd)%Q → 1 <= Pricing.exactCredits tokens usd.
Proof.
  intros Hrange. rewrite !calculateCredits_keys.
  destruct (prices_up_to_3000 tokens Hrange) as (H4 & H35 & Hc).
  split_and!; [done.. |].
  intros usd _. unfold Pricing.exactCredits.
  assert (H1 : Qceiling 1 <= Qceiling (Qmax 1 (inject_Z tokens * usd * inject_Z 100)))
    by apply Qceiling_resp_le, Q.le_max_l.
  by change (Qceiling 1) with 1 in H1.
Qed.

(** X4.  The estimate the admission check is made with, for a prompt of
    at most 10000 UTF-16 code units, lies between 500 and 3000 tokens; it
    costs exactly 1 credit on gpt-3.5-turbo, the default model, and
    between 2 and 9 credits on gpt-4. *)
Theorem admission_estimate (prompt : string) :
  Z.of_nat (Utf16.length prompt) <= 10000 →
  500 <= AI.estimatedTokens prompt <= 3000 ∧
  priceOf (AI.estimatedTokens prompt) "gpt-3.5-turbo" = Some 1 ∧
  ∃ credits,
    priceOf (AI.estimatedTokens prompt) "gpt-4" = Some credits ∧
    2 <= credits <= 9.
Proof.
  intros Hlen. pose proof (estimatedTokens_bounds prompt Hlen) as Hest.
  set (tokens := AI.estimatedTokens prompt) in *.
  rewrite !calculateCredits_keys.
  destruct (prices_up_to_3000 tokens ltac:(lia)) as (H4 & H35 & _).
  split; [done |]. split.
  - rewrite H35. f_equal.
    pose proof (exactCredits_le 500 tokens (2 # 1000000) ltac:(done) ltac:(lia)) as Hlo.
    pose proof (exactCredits_le tokens 3000 (2 # 1000000) ltac:(done) ltac:(lia)) as Hhi.
    change (Pricing.exactCredits 500 (2 # 1000000)) with 1 in Hlo.
    change (Pricing.exactCredits 3000 (2 # 1000000)) with 1 in Hhi.
    lia.
  - eexists. split; [exact H4 |].
    pose proof (exactCredits_le 500 tokens (3 # 100000) ltac:(done) ltac:(lia)) as Hlo.
    pose proof (exactCredits_le tokens 3000 (3 # 100000) ltac:(done) ltac:(lia)) as Hhi.
    change (Pricing.exactCredits 500 (3 # 100000)) with 2 in Hlo.
    change (Pricing.exactCredits 3000 (3 # 100000)) with 9 in Hhi.
    case_bool_decide as Hbump; [| lia].
    apply elem_of_cons in Hbump as [-> | Hbump].
    { change (Pricing.exactCredits 1000 (3 # 100000)) with 3. lia. }
    apply elem_of_cons in Hbump as [-> | Hbump]; [| by inversion Hbump].
    change (Pricing.exactCredits 2000 (3 # 100000)) with 6. lia.
Qed.

End PriceBounds.

(** ** Account manager *)

Section AccountFacts.
Import UserModel Ledger.

(** C4.  [deductCredits] throws exactly when the amount exceeds the
    balance; otherwise it takes the amount off [credits] and adds it to
    [totalCreditsUsed]; a rejected debit leaves the account as it was. *)
Theorem deductCredits_all_or_nothing (u : User) (amount : Z) :
  (deductCredits u amount = Throw InsufficientCredits ↔ amount > credits u) ∧
  (amount <= credits u →
     deductCredits u amount =
       Return {| credits := credits u - amount;
                 totalCreditsUsed := totalCreditsUsed u + amount;
                 totalCreditsPurchased := totalCreditsPurchased u;
                 isActive := isActive u |}) ∧
  (amount > credits u → step u (Debit amount) = u).
Proof.
  unfold step, deductCredits.
  destruct (Z.ltb_spec (credits u) amount) as [Hlt | Hge].
  - split; [split; [lia | done] |]. split; [lia | done].
  - split; [split; [done | lia] |]. split; [done | lia].
Qed.

(** Every operation keeps a non-negative balance non-negative. *)
Lemma step_nonneg (u : User) (op : Op) :
  0 <= credits u → wellFormed op → 0 <= credits (step u op).
Proof.
  intros Hu Hop. destruct op as [a | a | c]; simpl in *.
  - unfold deductCredits. destruct (Z.ltb_spec (credits u) a); simpl; lia.
  - lia.
  - unfold Admin.clawback.
    destruct (Z.ltb_spec 0 c), (Z.leb_spec c (credits u)); simpl; lia.
Qed.

(** C1.  Starting from a non-negative balance, the balance is non-negative
    after every operation of any sequence of debits, credits and refund
    clawbacks, and a debit above the current balance is always rejected. *)
Theorem balance_never_negative (u : User) (ops : list Op) :
  0 <= credits u →
  Forall wellFormed ops →
  Forall (λ s, 0 <= credits s) (trace u ops) ∧
  (∀ (s : User) (amount : Z),
     credits s < amount → deductCredits s amount = Throw InsufficientCredits).
Proof.
  intros Hu Hops. split.
  - revert u Hu. induction Hops as [| op rest Hop _ IH]; intros u Hu; simpl.
    + constructor.
    + pose proof (step_nonneg u op Hu Hop) as Hs.
      constructor; [exact Hs | apply IH, Hs].
  - intros s amount Hlt. unfold deductCredits.
    destruct (Z.ltb_spec (credits s) amount); [done | lia].
Qed.



End AccountFacts.

(** C4 at a concrete input: balance 7, debits of 8 and of 5. *)
Lemma deductCredits_all_or_nothing_witness :
  let u := {| UserModel.credits := 7; UserModel.totalCreditsUsed := 3;
              UserModel.totalCreditsPurchased := 0; UserModel.isActive := true |} in
  UserModel.deductCredits u 8 = UserModel.Throw UserModel.InsufficientCredits ∧
  Ledger.step u (Ledger.Debit 8) = u ∧
  UserModel.deductCredits u 5 =
    UserModel.Return
      {| UserModel.credits := 2; UserModel.totalCreditsUsed := 8;
         UserModel.totalCreditsPurchased := 0; UserModel.isActive := true |}.
Proof.
  intros u.
  pose proof (deductCredits_all_or_nothing u 8) as (Hthrow & _ & Hsame).
  pose proof (deductCredits_all_or_nothing u 5) as (_ & Hok & _).
  split; [apply Hthrow; simpl; lia |].
  split; [apply Hsame; simpl; lia |].
  apply Hok; simpl; lia.
Defined.

(** C1 at a concrete input: balance 10, then debit 3, debit 8 (rejected),
    credit 600, clawback 600, clawback 600 (skipped). *)
Lemma balance_never_negative_witness :
  let u := {| UserModel.credits := 10; UserModel.totalCreditsUsed := 0;
              UserModel.totalCreditsPurchased := 0; UserModel.isActive := true |} in
  let ops := [Ledger.Debit 3; Ledger.Debit 8; Ledger.Credit 600;
              Ledger.Clawback 600; Ledger.Clawback 600] in
  0 <= UserModel.credits u ∧ Forall Ledger.wellFormed ops ∧
  Forall (λ s, 0 <= UserModel.credits s) (Ledger.trace u ops) ∧
  map UserModel.credits (Ledger.trace u ops) = [7; 7; 607; 7; 7].
Proof.
  intros u ops.
  assert (Hu : 0 <= UserModel.credits u) by (simpl; lia).
  assert (Hops : Forall Ledger.wellFormed ops).
  { repeat constructor. simpl. lia. }
  split; [exact Hu |]. split; [exact Hops |].
  split; [exact (proj1 (balance_never_negative u ops Hu Hops)) | reflexivity].
Defined.

(** [POST /register] stores the user with the schema defaults, unless the
    welcome bonus is configured negative. *)
Lemma register_stores_newUser (db : Store.DB) (env : option Z) (uid : nat) (now : Z) :
  0 <= UserModel.DEFAULT_CREDITS env →
  Auth.register db env uid now =
    Store.createTransaction (Store.saveUser db uid (UserModel.newUser env))
      (Auth.welcomeTransaction env uid now) ∧
  Store.users (Auth.register db env uid now) !! uid = Some (UserModel.newUser env).
Proof.
  intros Henv. unfold Auth.register, UserModel.validates. simpl.
  destruct (Z.leb_spec 0 (UserModel.DEFAULT_CREDITS env)); [| lia].
  split; [done |]. simpl. apply lookup_insert_eq.
Qed.



(** ** Payment settlement *)

Section SettlementFacts.
Import UserModel TransactionModel Store Payments.

(** A succeeded event on a transaction that is not yet [completed] credits
    the owner and completes the transaction. *)
Lemma handlePaymentSuccess_settles (db : DB) (paymentIntent : PaymentIntent)
    (now : Z) (i : nat) (tx : Transaction) (u : User) :
  findByPaymentIntent db (id paymentIntent) = Some (i, tx) →
  status tx ≠ completed →
  users db !! user tx = Some u →
  handlePaymentSuccess db paymentIntent now =
    saveTransaction
      (saveUser db (user tx) (addCredits u (TransactionModel.credits tx)))
      i (markCompleted tx now).
Proof.
  intros Hfind Hst Hu. unfold handlePaymentSuccess.
  rewrite Hfind, bool_decide_eq_false_2 by done. by rewrite Hu.
Qed.

(** Completing the transaction found for a payment intent keeps it the
    one found for that intent. *)
Lemma findByPaymentIntent_after_settle (db : DB) (pid : string) (now : Z)
    (i : nat) (tx : Transaction) (uid : nat) (u : User) :
  findByPaymentIntent db pid = Some (i, tx) →
  findByPaymentIntent
    (saveTransaction (saveUser db uid u) i (markCompleted tx now)) pid
  = Some (i, markCompleted tx now).
Proof.
  unfold findByPaymentIntent. simpl.
  intros (Hi & HP & Hmin)%list_find_Some.
  apply list_find_Some. split_and!.
  - apply list_lookup_insert_eq. by eapply lookup_lt_Some.
  - exact HP.
  - intros j y Hj Hlt. rewrite list_lookup_insert_ne in Hj by lia. eauto.
Qed.

(** A succeeded event on a [completed] transaction changes nothing, however
    often it is delivered. *)
Lemma replaySuccess_completed (db : DB) (paymentIntent : PaymentIntent)
    (times : list Z) (i : nat) (tx : Transaction) :
  findByPaymentIntent db (id paymentIntent) = Some (i, tx) →
  status tx = completed →
  replaySuccess db paymentIntent times = db.
Proof.
  intros Hfind Hst. unfold replaySuccess.
  induction times as [| t rest IH]; simpl; [done |].
  unfold handlePaymentSuccess at 2.
  rewrite Hfind, bool_decide_eq_true_2 by done. exact IH.
Qed.

(** C3, as the code has it.  Delivering the succeeded event of a pending
    purchase one or more times credits the owner once and completes the
    transaction; a succeeded event with no transaction or with a completed
    one, and a failed event with no transaction or with a non-pending one,
    change nothing. *)
Theorem settlement_credits_once :
  (∀ (db : DB) (paymentIntent : PaymentIntent) (i : nat) (tx : Transaction)
     (u : User) (now : Z) (later : list Z),
     findByPaymentIntent db (id paymentIntent) = Some (i, tx) →
     status tx = pending →
     users db !! user tx = Some u →
     replaySuccess db paymentIntent (now :: later) =
       saveTransaction
         (saveUser db (user tx) (addCredits u (TransactionModel.credits tx)))
         i (markCompleted tx now))
  ∧ (∀ (db : DB) (paymentIntent : PaymentIntent) (now : Z),
       (findByPaymentIntent db (id paymentIntent) = None ∨
        ∃ i tx, findByPaymentIntent db (id paymentIntent) = Some (i, tx) ∧
                status tx = completed) →
       handlePaymentSuccess db paymentIntent now = db)
  ∧ (∀ (db : DB) (paymentIntent : PaymentIntent) (now : Z),
       (findByPaymentIntent db (id paymentIntent) = None ∨
        ∃ i tx, findByPaymentIntent db (id paymentIntent) = Some (i, tx) ∧
                status tx ≠ pending) →
       handlePaymentFailure db paymentIntent now = db).
Proof.
  split_and!.
  - intros db paymentIntent i tx u now later Hfind Hst Hu.
    change (replaySuccess db paymentIntent (now :: later))
      with (replaySuccess (handlePaymentSuccess db paymentIntent now)
              paymentIntent later).
    rewrite (handlePaymentSuccess_settles db paymentIntent now i tx u)
      by (done || congruence).
    eapply replaySuccess_completed.
    + by apply findByPaymentIntent_after_settle.
    + reflexivity.
  - intros db paymentIntent now [Hnone | (i & tx & Hfind & Hst)];
      unfold handlePaymentSuccess.
    + by rewrite Hnone.
    + by rewrite Hfind, bool_decide_eq_true_2.
  - intros db paymentIntent now [Hnone | (i & tx & Hfind & Hst)];
      unfold handlePaymentFailure.
    + by rewrite Hnone.
    + by rewrite Hfind, bool_decide_eq_true_2.
Qed.

End SettlementFacts.

(** C3: a succeeded event whose transaction is already non-pending is not
    always a no-op.  After a failed event has marked the purchase [failed],
    the succeeded event for the same intent raises the balance from 10 to
    610 and turns the status into [completed]. *)
Lemma success_after_failure_still_credits :
  let db1 := Payments.handlePaymentFailure Scenario.premiumStore Scenario.pi_1 1 in
  let db2 := Payments.handlePaymentSuccess db1 Scenario.pi_1 2 in
  TransactionModel.status <$> (Store.transactions db1 !! 0%nat)
    = Some TransactionModel.failed ∧
  UserModel.credits <$> (Store.users db1 !! 0%nat) = Some 10 ∧
  TransactionModel.status <$> (Store.transactions db2 !! 0%nat)
    = Some TransactionModel.completed ∧
  UserModel.credits <$> (Store.users db2 !! 0%nat) = Some 610 ∧
  db2 ≠ db1.
Proof.
  intros db1 db2. split_and!; by vm_compute.
Qed.

(** C3, in the form proved above, at a concrete input: the succeeded event of the pending
    premium purchase delivered three times. *)
Lemma settlement_credits_once_witness :
  let db3 := Payments.replaySuccess Scenario.premiumStore Scenario.pi_1 [1; 2; 3] in
  Store.findByPaymentIntent Scenario.premiumStore (Payments.id Scenario.pi_1)
    = Some (0%nat, Scenario.premiumPurchase) ∧
  TransactionModel.status Scenario.premiumPurchase = TransactionModel.pending ∧
  Store.users Scenario.premiumStore !! TransactionModel.user Scenario.premiumPurchase
    = Some (UserModel.newUser None) ∧
  db3 =
    Store.saveTransaction
      (Store.saveUser Scenario.premiumStore 0%nat
         (UserModel.addCredits (UserModel.newUser None) 600))
      0%nat (TransactionModel.markCompleted Scenario.premiumPurchase 1).
Proof.
  intros db3.
  assert (Hfind : Store.findByPaymentIntent Scenario.premiumStore (Payments.id Scenario.pi_1)
                  = Some (0%nat, Scenario.premiumPurchase)) by reflexivity.
  assert (Hst : TransactionModel.status Scenario.premiumPurchase = TransactionModel.pending)
    by reflexivity.
  assert (Hu : Store.users Scenario.premiumStore !! TransactionModel.user Scenario.premiumPurchase
               = Some (UserModel.newUser None)) by reflexivity.
  split; [exact Hfind |]. split; [exact Hst |]. split; [exact Hu |].
  exact (proj1 settlement_credits_once Scenario.premiumStore Scenario.pi_1 0%nat Scenario.premiumPurchase
           (UserModel.newUser None) 1 [2; 3] Hfind Hst Hu).
Defined.

(** ** Admin refund *)

Section RefundFacts.
Import UserModel TransactionModel Store Admin.


(** A valid refund request on a completed, not yet refunded transaction
    rewrites that transaction with [processRefund] and touches no other
    transaction. *)
Lemma refundRoute_processes (db : DB) (id : nat) (body : RefundBody) (now : Z)
    (tx : Transaction) :
  transactions db !! id = Some tx →
  status tx = completed →
  isRefunded (refund tx) = false →
  validRefundBody body = true →
  ∃ response us,
    (tx.(TransactionModel.credits) <= 0 ∨ is_Some (users db !! user tx)
       → response = Refunded200) ∧
    refundRoute db id body now =
      (response,
       {| users := us;
          transactions :=
            <[id := processRefund tx (refundAmountOf body tx) (reason body)
                      ("refund_" +:+ pretty now) now]> (transactions db) |}).
Proof.
  intros Htx Hst Href Hvalid. unfold refundRoute.
  rewrite Hvalid, Htx. simpl negb. cbv iota.
  rewrite bool_decide_eq_false_2 by (rewrite Hst; intros H; by apply H).
  rewrite Href. cbv zeta. unfold saveTransaction at 1. simpl users.
  destruct (users db !! user tx) as [u |] eqn:Hu.
  - destruct (clawback u (TransactionModel.credits tx)) as [u' |];
      eexists _, _; (split; [intros _; reflexivity | reflexivity]).
  - destruct (Z.ltb_spec 0 (TransactionModel.credits tx));
      eexists _, _; (split; [| reflexivity]).
    + intros [? | [? ?]]; [lia | done].
    + done.
Qed.

(** C8, as the code has it.  After a refund of a completed, not yet
    refunded transaction, the transaction is [refunded] with its
    [isRefunded] flag set, and a second refund request is turned down by the
    status check ("only completed transactions can be refunded") and
    changes neither the transaction nor any balance. *)
Theorem second_refund_changes_nothing (db : DB) (id : nat)
    (first second : RefundBody) (now1 now2 : Z) (tx : Transaction) :
  transactions db !! id = Some tx →
  status tx = completed →
  isRefunded (refund tx) = false →
  validRefundBody first = true →
  validRefundBody second = true →
  let db1 := (refundRoute db id first now1).2 in
  (∃ tx1, transactions db1 !! id = Some tx1 ∧
          status tx1 = refunded ∧ isRefunded (refund tx1) = true) ∧
  refundRoute db1 id second now2 = (NotCompleted400, db1).
Proof.
  intros Htx Hst Href Hv1 Hv2.
  destruct (refundRoute_processes db id first now1 tx Htx Hst Href Hv1)
    as (r & us & _ & Heq).
  rewrite Heq. simpl.
  assert (Hlook :
    <[id := processRefund tx (refundAmountOf first tx) (reason first)
              ("refund_" +:+ pretty now1) now1]> (transactions db) !! id
    = Some (processRefund tx (refundAmountOf first tx) (reason first)
              ("refund_" +:+ pretty now1) now1)).
  { apply list_lookup_insert_eq. by eapply lookup_lt_Some. }
  split.
  - eexists. split; [exact Hlook | by split].
  - unfold refundRoute. rewrite Hv2. simpl. rewrite Hlook.
    by rewrite bool_decide_eq_true_2.
Qed.


End RefundFacts.

(** ** Metered AI usage *)

Section MeteringFacts.
Import UserModel TransactionModel Store AI.

Variables (OPENAI_API_KEY ANTHROPIC_API_KEY : option string).
Variable provider : string -> string -> string -> ProviderAnswer.

Abbreviation generate :=
  (AI.generate OPENAI_API_KEY ANTHROPIC_API_KEY provider).
Abbreviation callRealAI :=
  (AI.callRealAI OPENAI_API_KEY ANTHROPIC_API_KEY provider).
Abbreviation requiredCredits body :=
  (Pricing.calculateCredits OPENAI_API_KEY ANTHROPIC_API_KEY
     (Number.ofZ (estimatedTokens (prompt body)))
     (default "gpt-3.5-turbo"%string (model body))).
Abbreviation available body :=
  (Pricing.isModelAvailable OPENAI_API_KEY ANTHROPIC_API_KEY
     (default "gpt-3.5-turbo"%string (model body))).

(** A request naming a model outside the catalog stops at the first guard
    of the handler, before any estimate is made. *)
Lemma generate_unknown_model (w : World) (uid : nat) (body : GenerateBody)
    (now : Z) (u : User) :
  users (db w) !! uid = Some u →
  available body = false →
  generate w uid body now = (ModelNotFound400, w).
Proof.
  intros Hu Hav. unfold AI.generate. by rewrite Hu, Hav.
Qed.

(** A request whose estimate exceeds the balance stops at the admission
    check. *)
Lemma generate_insufficient (w : World) (uid : nat) (body : GenerateBody)
    (now : Z) (u : User) :
  users (db w) !! uid = Some u →
  available body = true →
  Number.ltb (Number.ofZ (UserModel.credits u)) (requiredCredits body) = true →
  generate w uid body now =
    (InsufficientCredits402 (requiredCredits body) (UserModel.credits u), w).
Proof.
  intros Hu Hav Hcost. unfold AI.generate.
  rewrite Hu, Hav. simpl negb. cbv iota zeta. by rewrite Hcost.
Qed.

(** C5.  When the estimate for a request exceeds the balance, the handler
    answers 402 "insufficient credits" and returns the world as it was: no
    call reached a provider and the balance did not move. *)
Theorem admission_rejects_before_provider (w : World) (uid : nat)
    (body : GenerateBody) (now : Z) (u : User) :
  users (db w) !! uid = Some u →
  available body = true →
  Number.ltb (Number.ofZ (UserModel.credits u)) (requiredCredits body) = true →
  generate w uid body now =
    (InsufficientCredits402 (requiredCredits body) (UserModel.credits u), w)
  ∧ providerCalls (generate w uid body now).2 = providerCalls w
  ∧ users (db (generate w uid body now).2) !! uid = Some u.
Proof.
  intros Hu Hav Hcost.
  rewrite (generate_insufficient w uid body now u Hu Hav Hcost). by split_and!.
Qed.

(** A log without [performance.processingTime] fails the validators. *)
Lemma validates_needs_processingTime (aiLog : AILogModel.AILog) :
  AILogModel.log_processingTime aiLog = None →
  AILogModel.validates aiLog = false.
Proof.
  intros Hnone. unfold AILogModel.validates. rewrite Hnone.
  by rewrite andb_false_r.
Qed.

(** Saving it throws, and so does the [catch] block that marks it failed
    and saves it again. *)
Lemma catchBlock_rejects (w : World) (id : nat) (aiLog : AILogModel.AILog) :
  AILogModel.log_processingTime aiLog = None →
  saveAILog w id aiLog = Throw ValidationError ∧
  catchBlock w id aiLog = (HandlerRejected, w).
Proof.
  intros Hnone. unfold catchBlock, saveAILog.
  rewrite !validates_needs_processingTime by done. done.
Qed.

(** An admitted request gets no further than the first [aiLog.save()]:
    the handler throws out of its [catch] block and the world is as it
    was. *)
Lemma generate_admitted (w : World) (uid : nat) (body : GenerateBody)
    (now : Z) (u : User) :
  users (db w) !! uid = Some u →
  available body = true →
  Number.ltb (Number.ofZ (UserModel.credits u)) (requiredCredits body) = false →
  generate w uid body now = (HandlerRejected, w).
Proof.
  intros Hu Hav Hcost. unfold AI.generate.
  rewrite Hu, Hav. simpl negb. cbv iota zeta. rewrite Hcost.
  set (aiLog := AILogModel.Build_AILog _ _ _ _ _ _).
  destruct (catchBlock_rejects w (length (aiLogs w)) aiLog eq_refl) as [-> ->].
  reflexivity.
Qed.

(** No request changes the world: not the store, not the logs, not the
    count of provider calls. *)
Lemma generate_world (w : World) (uid : nat) (body : GenerateBody) (now : Z) :
  (generate w uid body now).2 = w.
Proof.
  destruct (users (db w) !! uid) as [u |] eqn:Hu;
    [| by unfold AI.generate; rewrite Hu].
  destruct (available body) eqn:Hav;
    [| by rewrite (generate_unknown_model w uid body now u)].
  destruct (Number.ltb (Number.ofZ (UserModel.credits u)) (requiredCredits body))
    eqn:Hcost.
  - by rewrite (generate_insufficient w uid body now u).
  - by rewrite (generate_admitted w uid body now u).
Qed.



End MeteringFacts.

(** ** The balance invariant across the handlers *)

Section StoreInvariant.
Import UserModel TransactionModel Store.

Variables (OPENAI_API_KEY ANTHROPIC_API_KEY : option string).
Variable provider : string -> string -> string -> AI.ProviderAnswer.

Lemma saveUser_balancesNonneg (db : DB) (uid : nat) (u : User) :
  balancesNonneg db → 0 <= UserModel.credits u →
  balancesNonneg (saveUser db uid u).
Proof.
  intros Hdb Hu k v. unfold saveUser; simpl.
  destruct (decide (uid = k)) as [-> | Hne].
  - rewrite lookup_insert_eq. by intros [= <-].
  - rewrite lookup_insert_ne by done. apply Hdb.
Qed.

Lemma saveTransaction_grantsNonneg (db : DB) (i : nat) (tx : Transaction) :
  grantsNonneg db → 0 <= TransactionModel.credits tx →
  grantsNonneg (saveTransaction db i tx).
Proof.
  intros Hdb Htx j y. unfold saveTransaction; simpl.
  intros [(-> & -> & _) | (_ & Hy)]%list_lookup_insert_Some; eauto.
Qed.

(** The webhook keeps both invariants. *)
Lemma webhook_keeps_invariant (db : DB) (event : Payments.Event) (now : Z) :
  balancesNonneg db → grantsNonneg db →
  balancesNonneg (Payments.webhook db event now) ∧
  grantsNonneg (Payments.webhook db event now).
Proof.
  intros Hb Hg. destruct event as [paymentIntent | paymentIntent |]; simpl;
    [| | done].
  - unfold Payments.handlePaymentSuccess.
    destruct (findByPaymentIntent db _) as [[i tx] |] eqn:Hfind; [| done].
    case_bool_decide; [done |].
    destruct (users db !! user tx) as [u |] eqn:Hu; [| done].
    apply list_find_Some in Hfind as (Htx & _ & _).
    pose proof (Hg _ _ Htx). pose proof (Hb _ _ Hu).
    split.
    + apply (saveUser_balancesNonneg db); [done | simpl; lia].
    + by apply (saveTransaction_grantsNonneg (saveUser db _ _)).
  - unfold Payments.handlePaymentFailure.
    destruct (findByPaymentIntent db _) as [[i tx] |] eqn:Hfind; [| done].
    case_bool_decide; [done |].
    apply list_find_Some in Hfind as (Htx & _ & _).
    split; [done |]. apply saveTransaction_grantsNonneg; [done |].
    simpl. by eapply Hg.
Qed.

(** The refund route keeps both invariants. *)
Lemma refundRoute_keeps_invariant (db : DB) (id : nat)
    (body : Admin.RefundBody) (now : Z) :
  balancesNonneg db → grantsNonneg db →
  balancesNonneg (Admin.refundRoute db id body now).2 ∧
  grantsNonneg (Admin.refundRoute db id body now).2.
Proof.
  intros Hb Hg. unfold Admin.refundRoute.
  destruct (negb (Admin.validRefundBody body)); [done |].
  destruct (transactions db !! id) as [tx |] eqn:Htx; [| done].
  case_bool_decide; [done |].
  destruct (isRefunded (refund tx)); [done |].
  cbv zeta.
  assert (Hg1 : grantsNonneg
    (saveTransaction db id
       (processRefund tx (Admin.refundAmountOf body tx) (Admin.reason body)
          ("refund_" +:+ pretty now) now))).
  { apply saveTransaction_grantsNonneg; [done |]. simpl. by eapply Hg. }
  unfold saveTransaction at 1. simpl users.
  destruct (users db !! user tx) as [u |] eqn:Hu.
  - unfold Admin.clawback.
    destruct (Z.ltb_spec 0 (TransactionModel.credits tx)),
             (Z.leb_spec (TransactionModel.credits tx) (UserModel.credits u));
      simpl; try done.
    split; [| done].
    apply (saveUser_balancesNonneg (saveTransaction db id _)); [done |].
    simpl. lia.
  - by destruct (0 <? TransactionModel.credits tx).
Qed.

(** [POST /generate] keeps both invariants. *)
Lemma generate_keeps_invariant (w : AI.World) (uid : nat)
    (body : AI.GenerateBody) (now : Z) :
  balancesNonneg (AI.db w) → grantsNonneg (AI.db w) →
  let w' := (AI.generate OPENAI_API_KEY ANTHROPIC_API_KEY provider
               w uid body now).2 in
  balancesNonneg (AI.db w') ∧ grantsNonneg (AI.db w').
Proof. intros Hb Hg. by rewrite generate_world. Qed.

End StoreInvariant.

(** ** The handlers run on concrete requests *)

(** C8: the second refund of the settled premium purchase is answered by
    the status check, not by the [isRefunded] check. *)
Lemma second_refund_is_not_AlreadyRefunded :
  let body := {| Admin.reason := "duplicate charge"; Admin.amount := None |} in
  let first := Admin.refundRoute Scenario.settledStore 0 body 5 in
  let second := Admin.refundRoute first.2 0 body 6 in
  first.1 = Admin.Refunded200 ∧
  second.1 = Admin.NotCompleted400 ∧
  second.1 ≠ Admin.AlreadyRefunded400.
Proof. intros body first second. split_and!; by vm_compute. Qed.

(** C8, in the form proved above, at a concrete input: the settled premium purchase refunded
    at time 5 and again at time 6. *)
Lemma second_refund_changes_nothing_witness :
  let body := {| Admin.reason := "duplicate charge"; Admin.amount := None |} in
  let db1 := (Admin.refundRoute Scenario.settledStore 0 body 5).2 in
  (∃ tx1, Store.transactions db1 !! 0%nat = Some tx1 ∧
          TransactionModel.status tx1 = TransactionModel.refunded ∧
          TransactionModel.isRefunded (TransactionModel.refund tx1) = true) ∧
  Admin.refundRoute db1 0 body 6 = (Admin.NotCompleted400, db1).
Proof.
  intros body.
  exact (second_refund_changes_nothing Scenario.settledStore 0 body body 5 6
           (TransactionModel.markCompleted Scenario.premiumPurchase 1)
           eq_refl eq_refl eq_refl eq_refl eq_refl).
Defined.



(** C5 at a concrete input: balance 0, a prompt whose estimate is 1 credit,
    and a provider that would answer. *)
Lemma admission_rejects_before_provider_witness :
  let answering := λ _ _ _ : string, AI.Answered "ok" 42 7 in
  let result :=
    AI.generate (Some "sk-1"%string) (Some "sk-2"%string) answering
      Scenario.brokeWorld 0 Scenario.hello 9 in
  result = (AI.InsufficientCredits402 (Number.ofZ 1) 0, Scenario.brokeWorld) ∧
  AI.providerCalls result.2 = 0%nat.
Proof.
  intros answering result.
  pose proof (admission_rejects_before_provider
                (Some "sk-1"%string) (Some "sk-2"%string) answering
                Scenario.brokeWorld 0 Scenario.hello 9
                {| UserModel.credits := 0; UserModel.totalCreditsUsed := 10;
                   UserModel.totalCreditsPurchased := 0;
                   UserModel.isActive := true |}
                eq_refl eq_refl eq_refl) as (Hgen & Hcalls & _).
  split; [exact Hgen | exact Hcalls].
Defined.



(** * Further properties of the code *)

(** ** Catalog queries and the admission estimate *)

Section CatalogFacts.
Import Pricing Catalog.

Variables (OPENAI_API_KEY ANTHROPIC_API_KEY : option string).

Abbreviation providerOf :=
  (Pricing.getProviderForModel OPENAI_API_KEY ANTHROPIC_API_KEY).
Abbreviation configOf :=
  (Pricing.modelConfigOf OPENAI_API_KEY ANTHROPIC_API_KEY).
Abbreviation availableModel :=
  (Pricing.isModelAvailable OPENAI_API_KEY ANTHROPIC_API_KEY).
Abbreviation providers :=
  (Pricing.AI_PROVIDERS OPENAI_API_KEY ANTHROPIC_API_KEY).

(** A name outside the three catalog names that is not inherited is found
    by no provider. *)
Lemma getProviderForModel_other (model : string) :
  model ≠ "gpt-4"%string → model ≠ "gpt-3.5-turbo"%string →
  model ≠ "claude-3-sonnet"%string →
  model ∉ Obj.inherited →
  providerOf model = None.
Proof.
  intros H1 H2 H3 Hown. apply getProviderForModel_unlisted; [| done].
  intros p c [Heq | Hin]%elem_of_cons.
  - inversion Heq; subst. unfold openai; simpl.
    by rewrite !lookup_insert_ne, lookup_empty.
  - apply elem_of_cons in Hin as [Heq | Hin]; [| by inversion Hin].
    inversion Heq; subst. unfold anthropic; simpl.
    by rewrite lookup_insert_ne, lookup_empty.
Qed.

(** [isModelAvailable] holds for the three catalog names, for the names
    every object inherits, and for no other. *)
Lemma isModelAvailable_iff (model : string) :
  availableModel model = true ↔
  model ∈ ["gpt-4"; "gpt-3.5-turbo"; "claude-3-sonnet"]%string
  ∨ model ∈ Obj.inherited.
Proof.
  split.
  - intros Hav.
    destruct (decide (model = "gpt-4"%string)) as [-> | H1]; [left; set_solver |].
    destruct (decide (model = "gpt-3.5-turbo"%string)) as [-> | H2];
      [left; set_solver |].
    destruct (decide (model = "claude-3-sonnet"%string)) as [-> | H3];
      [left; set_solver |].
    destruct (decide (model ∈ Obj.inherited)) as [Hin | Hout]; [by right |].
    unfold Pricing.isModelAvailable in Hav.
    by rewrite getProviderForModel_other in Hav.
  - intros [Hin | Hin].
    + repeat (apply elem_of_cons in Hin as [-> | Hin]; [by vm_compute |]).
      by inversion Hin.
    + unfold Pricing.isModelAvailable.
      by destruct (getProviderForModel_inherited OPENAI_API_KEY ANTHROPIC_API_KEY
                     model Hin) as [-> _].
Qed.

(** X1.  Of the model names [validateAIRequest] lets through, the catalog
    holds only gpt-4 and gpt-3.5-turbo: the other three are always turned
    down by the availability guard, and claude-3-sonnet, which the catalog
    does hold, never passes the validator. *)
Theorem validated_and_available_models (model : string) :
  (model ∈ Validation.allowedModels ∧ availableModel model = true) ↔
  (model = "gpt-4"%string ∨ model = "gpt-3.5-turbo"%string).
Proof.
  split.
  - intros [Hin Hav]. unfold Validation.allowedModels in Hin.
    repeat (apply elem_of_cons in Hin as [-> | Hin];
            [first [by left | by right | by vm_compute in Hav] |]).
    by inversion Hin.
  - intros [-> | ->]; (split; [unfold Validation.allowedModels; set_solver
                              | by vm_compute]).
Qed.

(** What [getAllModels] holds under a name. *)
Lemma getAllModels_lookup (model : string) :
  getAllModels OPENAI_API_KEY ANTHROPIC_API_KEY !! model =
    match models (openai OPENAI_API_KEY) !! model,
          models (anthropic ANTHROPIC_API_KEY) !! model with
    | _, Some c =>
        Some {| listing_config := c; listing_provider := "anthropic";
                listing_available := AI.hasApiKey (anthropic ANTHROPIC_API_KEY) |}
    | Some c, None =>
        Some {| listing_config := c; listing_provider := "openai";
                listing_available := AI.hasApiKey (openai OPENAI_API_KEY) |}
    | None, None => None
    end.
Proof.
  unfold getAllModels, Pricing.AI_PROVIDERS. cbn [foldl].
  unfold listProvider. cbn [fst snd].
  rewrite !lookup_union, !lookup_fmap, lookup_empty.
  destruct (models (openai OPENAI_API_KEY) !! model),
           (models (anthropic ANTHROPIC_API_KEY) !! model); reflexivity.
Qed.

(** X2.  [getAllModels] lists exactly the models for which [getModelInfo]
    reports a configuration, each with that configuration and provider and
    with [available] telling whether the provider's API key is set.  For
    a name every object inherits, [getModelInfo] answers with an object
    that holds the provider "openai" and nothing else, and [getAllModels]
    does not list the name. *)
Theorem getAllModels_agrees_with_getModelInfo (model : string) :
  getAllModels OPENAI_API_KEY ANTHROPIC_API_KEY !! model =
    match getModelInfo OPENAI_API_KEY ANTHROPIC_API_KEY model with
    | Some {| info_config := Some modelConfig; info_provider := provider |} =>
        Some {| listing_config := modelConfig;
                listing_provider := provider;
                listing_available :=
                  from_option AI.hasApiKey false
                    (providerConfig providers provider) |}
    | _ => None
    end
  ∧ (model ∈ Obj.inherited →
     getModelInfo OPENAI_API_KEY ANTHROPIC_API_KEY model
       = Some {| info_config := None; info_provider := "openai" |}
     ∧ getAllModels OPENAI_API_KEY ANTHROPIC_API_KEY !! model = None).
Proof.
  split.
  - destruct (decide (model = "gpt-4"%string)) as [-> | H1]; [by vm_compute |].
    destruct (decide (model = "gpt-3.5-turbo"%string)) as [-> | H2];
      [by vm_compute |].
    destruct (decide (model = "claude-3-sonnet"%string)) as [-> | H3];
      [by vm_compute |].
    assert (Hnone : getAllModels OPENAI_API_KEY ANTHROPIC_API_KEY !! model = None).
    { rewrite getAllModels_lookup. unfold openai, anthropic; simpl.
      by rewrite !lookup_insert_ne, !lookup_empty. }
    rewrite Hnone. unfold getModelInfo.
    destruct (decide (model ∈ Obj.inherited)) as [Hin | Hout].
    + by destruct (getProviderForModel_inherited OPENAI_API_KEY ANTHROPIC_API_KEY
                     model Hin) as [-> ->].
    + by rewrite getProviderForModel_other.
  - intros Hin. split.
    + unfold getModelInfo.
      by destruct (getProviderForModel_inherited OPENAI_API_KEY ANTHROPIC_API_KEY
                     model Hin) as [-> ->].
    + unfold Obj.inherited in Hin.
      repeat (apply elem_of_cons in Hin as [-> | Hin]; [by vm_compute |]).
      by inversion Hin.
Qed.

End CatalogFacts.

(** ** [POST /generate]: what an admitted request comes to, and the frame *)

Section GenerateFacts.
Import UserModel TransactionModel Store AI.

Variables (OPENAI_API_KEY ANTHROPIC_API_KEY : option string).
Variable provider : string -> string -> string -> ProviderAnswer.

Abbreviation handler :=
  (AI.generate OPENAI_API_KEY ANTHROPIC_API_KEY provider).
Abbreviation callAI :=
  (AI.callRealAI OPENAI_API_KEY ANTHROPIC_API_KEY provider).
Abbreviation price :=
  (Pricing.calculateCredits OPENAI_API_KEY ANTHROPIC_API_KEY).
Abbreviation modelOf body := (default "gpt-3.5-turbo"%string (model body)).

(** [callRealAI] makes at most one call to a provider. *)
Lemma callRealAI_at_most_one_call (prompt model : string) :
  ((callAI prompt model).2 <= 1)%nat.
Proof.
  unfold AI.callRealAI.
  destruct (Pricing.getProviderForModel _ _ model) as [p |]; [| simpl; lia].
  destruct (Pricing.providerConfig _ p) as [c |]; [| simpl; lia].
  destruct (hasApiKey c); [| simpl; lia].
  destruct (provider p prompt model); simpl; lia.
Qed.



(** What the handler leaves alone. *)
Lemma generate_footprint (w : World) (uid : nat) (body : GenerateBody) (now : Z) :
  let w' := (handler w uid body now).2 in
  (providerCalls w <= providerCalls w' <= providerCalls w + 1)%nat ∧
  (∀ other, other ≠ uid → users (db w') !! other = users (db w) !! other) ∧
  (∃ new, transactions (db w') = transactions (db w) ++ new ∧
          (length new <= 1)%nat).
Proof.
  intros w'. subst w'. rewrite generate_world. split_and!; [lia | lia | done |].
  exists []. rewrite app_nil_r. simpl. split; [done | lia].
Qed.

(** X8.  Whatever the request and the provider do, the handler calls a
    provider at most once, leaves every other user's document alone,
    keeps every transaction already stored and adds at most one. *)
Theorem generate_frame (w : World) (uid : nat) (body : GenerateBody) (now : Z) :
  let w' := (handler w uid body now).2 in
  (providerCalls w <= providerCalls w' <= providerCalls w + 1)%nat ∧
  (∀ other, other ≠ uid → users (db w') !! other = users (db w) !! other) ∧
  (∃ new, transactions (db w') = transactions (db w) ++ new ∧
          (length new <= 1)%nat).
Proof. apply generate_footprint. Qed.

(** X9.  If neither provider has an API key, no request reaches a
    provider and no request changes the store. *)
Theorem generate_without_keys_is_inert (w : World) (uid : nat)
    (body : GenerateBody) (now : Z) :
  hasApiKey (Pricing.openai OPENAI_API_KEY) = false →
  hasApiKey (Pricing.anthropic ANTHROPIC_API_KEY) = false →
  providerCalls (handler w uid body now).2 = providerCalls w ∧
  db (handler w uid body now).2 = db w.
Proof. intros _ _. by rewrite generate_world. Qed.

End GenerateFacts.

(** X10.  For every request type [validateAIRequest] accepts,
    [preparePrompt] hands the prompt on unchanged: the specialist prefixes
    belong to request types the validator turns down. *)
Theorem preparePrompt_validated_is_identity (prompt requestType : string) :
  requestType ∈ Validation.allowedRequestTypes →
  Prompting.preparePrompt prompt requestType = prompt.
Proof.
  intros Hin. unfold Validation.allowedRequestTypes in Hin.
  unfold Prompting.preparePrompt.
  assert (Hcase : Prompting.prompts prompt !! requestType = Some prompt
                  ∨ Prompting.prompts prompt !! requestType = None).
  { repeat (apply elem_of_cons in Hin as [-> | Hin];
            [first [by left; vm_compute | by right; vm_compute] |]).
    by inversion Hin. }
  destruct Hcase as [-> | ->]; [| done].
  by case_bool_decide.
Qed.

(** ** Purchases: from the payment intent to the credited balance *)

Section PurchaseFacts.
Import UserModel TransactionModel Store Payments Purchases.

(** The payment provider, as [POST /create-payment-intent] sees it. *)
Variable stripe : Z -> string -> option string.

(** A transaction appended under an intent id no stored transaction
    carries is the one found for that id. *)
Lemma findByPaymentIntent_created (db : DB) (tx : Transaction) (intentId : string) :
  findByPaymentIntent db intentId = None →
  paymentIntentId tx = Some intentId →
  findByPaymentIntent (createTransaction db tx) intentId
  = Some (length (transactions db), tx).
Proof.
  unfold findByPaymentIntent, createTransaction. simpl. intros Hnone Htx.
  rewrite list_find_app_r by done. simpl.
  rewrite decide_True by done. reflexivity.
Qed.

(** Every package grants at least the credits it names, and the bonus is
    what it grants on top. *)
Lemma creditsGranted_at_least_credits (name : string) (packageInfo : Package) :
  creditPackages !! name = Some packageInfo →
  0 < pkg_credits packageInfo <= creditsGranted packageInfo.
Proof.
  unfold creditPackages, creditsGranted.
  intros H.
  repeat (apply lookup_insert_Some in H as [[_ <-] | [_ H]]; [simpl; lia |]).
  by rewrite lookup_empty in H.
Qed.

(** X11.  A purchase request for a package that the Transaction schema
    knows (basic, premium or enterprise) records one pending
    [credit_purchase] under the provider's intent id, worth the package's
    credits plus its bonus, and moves no balance; once the succeeded
    webhook for that intent arrives, the buyer's balance and
    [totalCreditsPurchased] have grown by exactly that many credits and the
    purchase is completed. *)
Theorem purchase_then_webhook_credits_package (db : DB) (uid : nat)
    (body : IntentBody) (u : User) (packageInfo : Package) (intentId : string)
    (lastError : option string) (now : Z) :
  users db !! uid = Some u →
  validIntentBody body = true →
  package body ∈ packageEnum →
  creditPackages !! package body = Some packageInfo →
  stripe (stripeAmount packageInfo) (toLowerCase (pkg_currency packageInfo))
    = Some intentId →
  findByPaymentIntent db intentId = None →
  let created := createPaymentIntent stripe db uid body in
  let settled :=
    handlePaymentSuccess created.2
      {| id := intentId; last_payment_error := lastError |} now in
  created.1 = IntentCreated intentId (length (transactions db)) ∧
  users created.2 = users db ∧
  transactions created.2 =
    transactions db ++ [purchaseTransaction uid packageInfo intentId] ∧
  users settled = <[uid := addCredits u (creditsGranted packageInfo)]> (users db) ∧
  transactions settled =
    transactions db ++
      [markCompleted (purchaseTransaction uid packageInfo intentId) now] ∧
  pkg_credits packageInfo <= creditsGranted packageInfo.
Proof.
  intros Hu Hvalid Henum Hpkg Hstripe Hfresh created settled.
  assert (Hc : created =
    (IntentCreated intentId (length (transactions db)),
     createTransaction db (purchaseTransaction uid packageInfo intentId))).
  { unfold created, createPaymentIntent.
    rewrite Hu, Hvalid, Hpkg, Hstripe. simpl negb. cbv iota.
    by rewrite bool_decide_eq_true_2. }
  unfold settled. rewrite Hc. simpl.
  split_and!; try done.
  - unfold handlePaymentSuccess. simpl id.
    rewrite (findByPaymentIntent_created db _ intentId Hfresh) by done.
    simpl. by rewrite Hu.
  - unfold handlePaymentSuccess. simpl id.
    rewrite (findByPaymentIntent_created db _ intentId Hfresh) by done.
    simpl. rewrite Hu. simpl.
    rewrite insert_app_r_alt, Nat.sub_diag by lia. reflexivity.
  - by apply (creditsGranted_at_least_credits (package body)).
Qed.

(** X31.  The mega package passes the validator of the request and cannot
    be bought: once the payment provider has opened the intent for its
    149.99 BRL, [transaction.save()] throws on the package name, which the
    Transaction schema does not list, and the handler answers 500 with no
    transaction stored.  Whatever the provider does, a request for mega
    leaves every transaction and every balance as it was. *)
Theorem mega_purchase_is_refused (db : DB) (uid : nat) (body : IntentBody)
    (u : User) (intentId : string) :
  users db !! uid = Some u →
  package body = "mega"%string →
  paymentMethod body = None ∨ paymentMethod body = Some "card"%string
    ∨ paymentMethod body = Some "pix"%string →
  validIntentBody body = true ∧
  (stripe 14999 "brl" = Some intentId →
   createPaymentIntent stripe db uid body = (IntentError500, db)) ∧
  (createPaymentIntent stripe db uid body).2 = db.
Proof.
  intros Hu Hpkg Hmethod.
  assert (Hvalid : validIntentBody body = true).
  { unfold validIntentBody. rewrite Hpkg.
    destruct Hmethod as [-> | [-> | ->]]; by vm_compute. }
  assert (Hmega : stripeAmount
            {| pkg_name := "Pacote Mega"; pkg_credits := 2500;
               pkg_price := 14999 # 100; pkg_currency := "BRL";
               pkg_bonus := Some 1000 |} = 14999) by by vm_compute.
  unfold createPaymentIntent. rewrite Hu, Hvalid, Hpkg. simpl negb. cbv iota.
  change (creditPackages !! "mega"%string) with
    (Some {| pkg_name := "Pacote Mega"; pkg_credits := 2500;
             pkg_price := 14999 # 100; pkg_currency := "BRL";
             pkg_bonus := Some 1000 |}).
  cbv iota. rewrite Hmega. cbn [pkg_currency].
  change (toLowerCase "BRL") with "brl"%string.
  split_and!; [done | by intros -> |].
  by destruct (stripe 14999 "brl").
Qed.

(** What [POST /confirm-payment] does with a succeeded intent. *)
Lemma confirmPayment_succeeded (db : DB) (uid : nat) (intentId : string)
    (transactionId : nat) (now : Z) (tx : Transaction) (u : User) :
  intentId ≠ ""%string →
  transactions db !! transactionId = Some tx →
  user tx = uid → paymentIntentId tx = Some intentId →
  status tx ≠ completed →
  users db !! uid = Some u →
  confirmPayment (Some "succeeded"%string) db uid intentId transactionId now =
    (Confirmed200 (TransactionModel.credits tx)
       (UserModel.credits u + TransactionModel.credits tx),
     saveTransaction
       (saveUser db uid (addCredits u (TransactionModel.credits tx)))
       transactionId (markCompleted tx now)).
Proof.
  intros Hid Htx Hown Hpid Hst Hu. unfold confirmPayment, findOwnTransaction.
  rewrite bool_decide_eq_false_2 by done. rewrite Htx.
  rewrite !bool_decide_eq_true_2 by done. simpl.
  rewrite bool_decide_eq_false_2 by done. by rewrite Hu.
Qed.

(** X12.  The two ways a succeeded payment reaches the ledger credit the
    buyer once between them: after [POST /confirm-payment] has credited a
    pending purchase, the succeeded webhook for the same intent changes
    nothing; after the webhook has credited it, confirming it is answered
    "already processed" and changes nothing. *)
Theorem confirm_and_webhook_credit_once (db : DB) (uid : nat)
    (paymentIntent : PaymentIntent) (transactionId : nat) (tx : Transaction)
    (u : User) (now later : Z) (stripeStatus : option string) :
  Payments.id paymentIntent ≠ ""%string →
  findByPaymentIntent db (Payments.id paymentIntent) = Some (transactionId, tx) →
  user tx = uid →
  status tx = pending →
  users db !! uid = Some u →
  let credited :=
    saveTransaction
      (saveUser db uid (addCredits u (TransactionModel.credits tx)))
      transactionId (markCompleted tx now) in
  (confirmPayment (Some "succeeded"%string) db uid (Payments.id paymentIntent)
     transactionId now).2 = credited ∧
  handlePaymentSuccess credited paymentIntent later = credited ∧
  handlePaymentSuccess db paymentIntent now = credited ∧
  confirmPayment stripeStatus credited uid (Payments.id paymentIntent)
    transactionId later = (AlreadyProcessed400, credited).
Proof.
  intros Hid Hfind Hown Hst Hu credited.
  pose proof Hfind as (Htx & Hpid & _)%list_find_Some.
  assert (Hfound : findByPaymentIntent credited (Payments.id paymentIntent)
                   = Some (transactionId, markCompleted tx now)).
  { by apply findByPaymentIntent_after_settle. }
  assert (Hlook : transactions credited !! transactionId
                  = Some (markCompleted tx now)).
  { by apply list_find_Some in Hfound as (? & _). }
  split_and!.
  - rewrite (confirmPayment_succeeded db uid _ transactionId now tx u);
      [done.. | congruence | done].
  - unfold handlePaymentSuccess. rewrite Hfound.
    by rewrite bool_decide_eq_true_2.
  - rewrite (handlePaymentSuccess_settles db paymentIntent now transactionId tx u);
      [by rewrite Hown | done | congruence | by rewrite Hown].
  - unfold confirmPayment, findOwnTransaction.
    rewrite bool_decide_eq_false_2 by done. rewrite Hlook.
    cbn [user paymentIntentId status markCompleted].
    rewrite (bool_decide_eq_true_2 (user tx = uid)) by done.
    rewrite (bool_decide_eq_true_2 (paymentIntentId tx = _)) by done.
    cbn [andb status markCompleted].
    by rewrite bool_decide_eq_true_2.
Qed.

(** X13.  [POST /confirm-payment] only touches a transaction of the
    caller: for a transaction owned by someone else, or stored under
    another intent id, it answers 404 and changes nothing, whatever the
    payment provider reports. *)
Theorem confirmPayment_foreign_transaction (stripeStatus : option string)
    (db : DB) (uid : nat) (intentId : string) (transactionId : nat) (now : Z)
    (tx : Transaction) :
  intentId ≠ ""%string →
  transactions db !! transactionId = Some tx →
  user tx ≠ uid ∨ paymentIntentId tx ≠ Some intentId →
  confirmPayment stripeStatus db uid intentId transactionId now
  = (ConfirmNotFound404, db).
Proof.
  intros Hid Htx Hforeign. unfold confirmPayment, findOwnTransaction.
  rewrite bool_decide_eq_false_2 by done. rewrite Htx.
  destruct Hforeign as [Hne | Hne].
  - by rewrite (bool_decide_eq_false_2 (user tx = uid)).
  - rewrite (bool_decide_eq_false_2 (paymentIntentId tx = Some intentId)) by done.
    by rewrite andb_false_r.
Qed.

(** X14.  Confirming too early does not lose the purchase: when the
    provider reports a status other than "succeeded", the pending purchase
    is marked failed and no balance moves; the succeeded webhook that
    arrives later still credits the buyer once and completes it. *)
Theorem early_confirm_then_webhook_still_credits (db : DB) (uid : nat)
    (paymentIntent : PaymentIntent) (transactionId : nat) (tx : Transaction)
    (u : User) (st : string) (now later : Z) :
  Payments.id paymentIntent ≠ ""%string →
  st ≠ "succeeded"%string →
  findByPaymentIntent db (Payments.id paymentIntent) = Some (transactionId, tx) →
  user tx = uid →
  status tx = pending →
  users db !! uid = Some u →
  let early :=
    confirmPayment (Some st) db uid (Payments.id paymentIntent) transactionId now in
  let final := handlePaymentSuccess early.2 paymentIntent later in
  early.1 = NotConfirmed400 st ∧
  users early.2 = users db ∧
  status <$> (transactions early.2 !! transactionId) = Some failed ∧
  users final = <[uid := addCredits u (TransactionModel.credits tx)]> (users db) ∧
  status <$> (transactions final !! transactionId) = Some completed.
Proof.
  intros Hid Hst Hfind Hown Hpend Hu early final.
  pose proof Hfind as (Htx & Hpid & Hmin)%list_find_Some.
  assert (Hlt : (transactionId < length (transactions db))%nat)
    by by eapply lookup_lt_Some.
  set (msg := ("Pagamento não foi bem-sucedido: " +:+ st)%string).
  assert (He : early = (NotConfirmed400 st,
                        saveTransaction db transactionId (markFailed tx msg now))).
  { unfold early, confirmPayment, findOwnTransaction.
    rewrite bool_decide_eq_false_2 by done. rewrite Htx.
    rewrite !bool_decide_eq_true_2 by done. simpl.
    rewrite bool_decide_eq_false_2 by congruence.
    by rewrite (bool_decide_eq_false_2 (st = "succeeded"%string)). }
  assert (Hfound : findByPaymentIntent (saveTransaction db transactionId
                                          (markFailed tx msg now))
                     (Payments.id paymentIntent)
                   = Some (transactionId, markFailed tx msg now)).
  { unfold findByPaymentIntent. simpl. apply list_find_Some. split_and!.
    - by apply list_lookup_insert_eq.
    - exact Hpid.
    - intros j y Hj Hjlt. rewrite list_lookup_insert_ne in Hj by lia. eauto. }
  unfold final. rewrite He. simpl.
  rewrite (handlePaymentSuccess_settles _ paymentIntent later transactionId
             (markFailed tx msg now) u); [| done | done | by simpl; rewrite Hown].
  simpl. rewrite Hown. split_and!; try done.
  - by rewrite list_lookup_insert_eq.
  - rewrite list_lookup_insert_eq; [done |]. by rewrite length_insert.
Qed.

End PurchaseFacts.

(** ** Refunds: the clawback and the refunded flag *)

Section RefundMore.
Import UserModel TransactionModel Store Admin Payments.

(** X15.  A refund of a completed purchase takes back all of its credits
    when the owner still holds that many, and none otherwise, never a part
    of them; it leaves [totalCreditsUsed] and [totalCreditsPurchased] as
    they were and touches no other user. *)
Theorem refund_clawback_all_or_nothing (db : DB) (id : nat) (body : RefundBody)
    (now : Z) (tx : Transaction) (u : User) :
  transactions db !! id = Some tx →
  status tx = completed →
  isRefunded (refund tx) = false →
  validRefundBody body = true →
  users db !! user tx = Some u →
  let after := (refundRoute db id body now).2 in
  (∃ u', users after !! user tx = Some u' ∧
         UserModel.credits u' =
           (if (0 <? TransactionModel.credits tx) &&
               (TransactionModel.credits tx <=? UserModel.credits u)
            then UserModel.credits u - TransactionModel.credits tx
            else UserModel.credits u) ∧
         totalCreditsUsed u' = totalCreditsUsed u ∧
         totalCreditsPurchased u' = totalCreditsPurchased u) ∧
  (∀ other, other ≠ user tx → users after !! other = users db !! other).
Proof.
  intros Htx Hst Href Hvalid Hu after. unfold after, refundRoute.
  rewrite Hvalid, Htx. simpl negb. cbv iota.
  rewrite bool_decide_eq_false_2 by (rewrite Hst; intros H; by apply H).
  rewrite Href. cbv zeta. unfold saveTransaction at 1. simpl users.
  rewrite Hu. unfold clawback.
  destruct ((0 <? TransactionModel.credits tx) &&
            (TransactionModel.credits tx <=? UserModel.credits u)); simpl.
  - split.
    + eexists. split; [apply lookup_insert_eq | by simpl].
    + intros other Hne. by rewrite lookup_insert_ne.
  - split; [eauto | done].
Qed.

(** X16.  The [isRefunded] flag outlives a replayed webhook.  After a
    refund, a new delivery of the succeeded webhook for the same intent
    finds the transaction [refunded], credits its owner again and sets it
    back to [completed] with the flag still set; a refund request after
    that is answered "already refunded" and changes nothing. *)
Theorem replay_after_refund_then_refund_again (db : DB)
    (paymentIntent : PaymentIntent) (id : nat) (tx : Transaction) (u1 : User)
    (first second : RefundBody) (now1 now2 now3 : Z) :
  findByPaymentIntent db (Payments.id paymentIntent) = Some (id, tx) →
  status tx = completed →
  isRefunded (refund tx) = false →
  validRefundBody first = true →
  validRefundBody second = true →
  let refundedDb := (refundRoute db id first now1).2 in
  users refundedDb !! user tx = Some u1 →
  let replayed := handlePaymentSuccess refundedDb paymentIntent now2 in
  users replayed !! user tx
    = Some (addCredits u1 (TransactionModel.credits tx)) ∧
  (∃ tx2, transactions replayed !! id = Some tx2 ∧
          status tx2 = completed ∧ isRefunded (refund tx2) = true) ∧
  refundRoute replayed id second now3 = (AlreadyRefunded400, replayed).
Proof.
  intros Hfind Hst Href Hv1 Hv2 refundedDb Hu1 replayed.
  pose proof Hfind as (Htx & Hpid & Hmin)%list_find_Some.
  assert (Hlt : (id < length (transactions db))%nat) by by eapply lookup_lt_Some.
  destruct (refundRoute_processes db id first now1 tx Htx Hst Href Hv1)
    as (r & us & _ & Heq).
  set (tx1 := processRefund tx (refundAmountOf first tx) (reason first)
                ("refund_" +:+ pretty now1) now1) in *.
  assert (Hr : refundedDb =
                 {| users := us; transactions := <[id := tx1]> (transactions db) |}).
  { unfold refundedDb. by rewrite Heq. }
  assert (Hfound : findByPaymentIntent refundedDb (Payments.id paymentIntent)
                   = Some (id, tx1)).
  { rewrite Hr. unfold findByPaymentIntent. simpl. apply list_find_Some.
    split_and!.
    - by apply list_lookup_insert_eq.
    - exact Hpid.
    - intros j y Hj Hjlt. rewrite list_lookup_insert_ne in Hj by lia. eauto. }
  assert (Hrep : replayed =
            saveTransaction
              (saveUser refundedDb (user tx)
                 (addCredits u1 (TransactionModel.credits tx)))
              id (markCompleted tx1 now2)).
  { unfold replayed.
    by rewrite (handlePaymentSuccess_settles refundedDb paymentIntent now2 id tx1 u1). }
  assert (Hlook : transactions replayed !! id = Some (markCompleted tx1 now2)).
  { rewrite Hrep, Hr. simpl. apply list_lookup_insert_eq.
    by rewrite length_insert. }
  split_and!.
  - rewrite Hrep. simpl. apply lookup_insert_eq.
  - eexists. split; [exact Hlook | by split].
  - unfold refundRoute. rewrite Hv2, Hlook. simpl negb. cbv iota.
    by rewrite bool_decide_eq_false_2 by (simpl; intros H; by apply H).
Qed.

End RefundMore.

(** ** The ledger under any sequence of requests *)

Section ApiFacts.
Import UserModel TransactionModel Store Api.

Variables (OPENAI_API_KEY ANTHROPIC_API_KEY : option string).
Variable provider : string -> string -> string -> AI.ProviderAnswer.
Variable env : option Z.

Abbreviation serve1 :=
  (Api.serve OPENAI_API_KEY ANTHROPIC_API_KEY provider env).
Abbreviation serveSeq :=
  (Api.serveAll OPENAI_API_KEY ANTHROPIC_API_KEY provider env).

(** A string of digits has a non-negative value. *)
Lemma digitsFrom_nonneg (s : string) (acc z : Z) :
  0 <= acc → digitsFrom acc s = Some z → 0 <= z.
Proof.
  revert acc. induction s as [| c rest IH]; intros acc Hacc; simpl.
  - by intros [= <-].
  - destruct (_ && _) eqn:Hd; [| done].
    apply andb_prop in Hd as [Hlo%Z.leb_le _]. apply IH. lia.
Qed.

(** A grant that is stored leaves a balance that was not negative not
    negative, and carries at least one credit. *)
Lemma addCreditsBody_nonneg (u u' : User) (credits : Purchases.BodyCredits) (n : Z) :
  Purchases.validCredits credits = true →
  0 <= UserModel.credits u →
  Purchases.addCreditsBody u credits = Return u' →
  Purchases.creditsValue credits = Some n →
  0 <= UserModel.credits u' ∧ 1 <= n.
Proof.
  intros Hvalid Hu Hadd Hval. destruct credits as [k | t]; simpl in *.
  - apply andb_prop in Hvalid as [Hk%Z.leb_le _].
    injection Hadd as <-. injection Hval as <-. simpl. lia.
  - rewrite Hval in Hvalid. apply andb_prop in Hvalid as [_ Hvalid%Z.leb_le].
    split; [| done].
    unfold addCreditsString in Hadd.
    destruct (appendAmount (UserModel.credits u) t) as [c |]; [| done].
    destruct (appendAmount (totalCreditsPurchased u) t) as [q |]; [| done].
    destruct (Z.leb_spec 0 c); [| done].
    by injection Hadd as <-.
Qed.

Lemma createTransaction_grantsNonneg (db : DB) (tx : Transaction) :
  grantsNonneg db → 0 <= TransactionModel.credits tx →
  grantsNonneg (createTransaction db tx).
Proof.
  intros Hg Htx i y. unfold createTransaction; simpl.
  intros [Hi | (_ & Hi)]%lookup_app_Some; [by eapply Hg |].
  by apply list_lookup_singleton_Some in Hi as [_ <-].
Qed.

(** One request keeps every balance and every transaction's credit count
    non-negative. *)
Lemma serve_keeps_invariant (w : AI.World) (request : Request) :
  0 <= DEFAULT_CREDITS env →
  balancesNonneg (AI.db w) → grantsNonneg (AI.db w) →
  balancesNonneg (AI.db (serve1 w request)) ∧
  grantsNonneg (AI.db (serve1 w request)).
Proof.
  intros Henv Hb Hg.
  destruct request as [now | uid body now | event now | uid body intentId
                      | uid intentId txid st now | userId n reason now
                      | id body now]; simpl.
  - unfold Auth.register. destruct (validates _); [| done]. split.
    + apply (saveUser_balancesNonneg (AI.db w)); [done | by simpl].
    + apply createTransaction_grantsNonneg; [done | by simpl].
  - apply generate_keeps_invariant; done.
  - by apply webhook_keeps_invariant.
  - unfold Purchases.createPaymentIntent.
    destruct (users (AI.db w) !! uid); [| done].
    destruct (negb _); [done |].
    destruct (Purchases.creditPackages !! _) as [pkg |] eqn:Hpkg; [| done].
    destruct intentId as [iid |]; [| done].
    case_bool_decide; [| done]. simpl. split; [done |].
    apply createTransaction_grantsNonneg; [done |]. simpl.
    pose proof (creditsGranted_at_least_credits _ _ Hpkg). lia.
  - unfold Purchases.confirmPayment, Purchases.findOwnTransaction.
    case_bool_decide; [done |].
    destruct (transactions (AI.db w) !! txid) as [tx |] eqn:Htx; [| done].
    destruct (_ && _); [| done].
    case_bool_decide; [done |].
    destruct st as [st |]; [| done].
    pose proof (Hg _ _ Htx) as Hc.
    case_bool_decide.
    + destruct (users (AI.db w) !! uid) as [u |] eqn:Hu; [| done].
      pose proof (Hb _ _ Hu). simpl. split.
      * apply (saveUser_balancesNonneg (AI.db w)); [done | simpl; lia].
      * by apply (saveTransaction_grantsNonneg (saveUser (AI.db w) _ _)).
    + simpl. split; [done |]. by apply saveTransaction_grantsNonneg.
  - unfold Purchases.adminAddCredits.
    destruct (negb _) eqn:Hv; [done |].
    apply negb_false_iff, andb_prop in Hv as [Hvalid _].
    destruct (users (AI.db w) !! userId) as [u |] eqn:Hu; [| done].
    destruct (Purchases.addCreditsBody u n) as [u' | e] eqn:Hadd; [| done].
    destruct (Purchases.creditsValue n) as [k |] eqn:Hval; [| done].
    destruct (addCreditsBody_nonneg u u' n k Hvalid (Hb _ _ Hu) Hadd Hval)
      as [Hu' Hk].
    simpl. split.
    + by apply (saveUser_balancesNonneg (AI.db w)).
    + apply (createTransaction_grantsNonneg (saveUser (AI.db w) _ _));
        [done | simpl; lia].
  - by apply refundRoute_keeps_invariant.
Qed.

(** X17.  Whatever requests the API serves, in whatever order, no stored
    balance and no stored transaction's credit count ever becomes
    negative, provided they were not negative to begin with and the
    welcome bonus is not configured negative. *)
Theorem api_never_makes_a_balance_negative (w : AI.World)
    (requests : list Request) :
  0 <= DEFAULT_CREDITS env →
  balancesNonneg (AI.db w) → grantsNonneg (AI.db w) →
  balancesNonneg (AI.db (serveSeq w requests)) ∧
  grantsNonneg (AI.db (serveSeq w requests)).
Proof.
  intros Henv. revert w. unfold Api.serveAll.
  induction requests as [| r rest IH]; intros w Hb Hg; simpl; [done |].
  destruct (serve_keeps_invariant w r Henv Hb Hg) as [Hb' Hg'].
  by apply IH.
Qed.

Lemma sameEntry_refl (tx : Transaction) : sameEntry tx tx.
Proof. by repeat split. Qed.

Lemma ledgerKept_refl (db : DB) : ledgerKept db db.
Proof. intros i tx Hi. eauto using sameEntry_refl. Qed.

Lemma ledgerKept_trans (db1 db2 db3 : DB) :
  ledgerKept db1 db2 → ledgerKept db2 db3 → ledgerKept db1 db3.
Proof.
  intros H12 H23 i tx Hi.
  destruct (H12 i tx Hi) as (tx2 & Hi2 & (? & ? & ? & ? & ? & ?)).
  destruct (H23 i tx2 Hi2) as (tx3 & Hi3 & (? & ? & ? & ? & ? & ?)).
  exists tx3. split; [done |].
  repeat split; try congruence. eauto.
Qed.

(** Only the transactions matter for [ledgerKept]. *)
Lemma ledgerKept_same_transactions (db db' : DB) :
  transactions db' = transactions db → ledgerKept db db'.
Proof. intros Heq i tx Hi. rewrite Heq. eauto using sameEntry_refl. Qed.

Lemma ledgerKept_append (db db' : DB) (new : list Transaction) :
  transactions db' = transactions db ++ new → ledgerKept db db'.
Proof.
  intros Heq i tx Hi. rewrite Heq. exists tx.
  split; [by apply lookup_app_l_Some | apply sameEntry_refl].
Qed.

Lemma ledgerKept_update (db db' : DB) (i : nat) (tx tx' : Transaction) :
  transactions db !! i = Some tx →
  sameEntry tx tx' →
  transactions db' = <[i := tx']> (transactions db) →
  ledgerKept db db'.
Proof.
  intros Hi Hsame Heq j y Hj. rewrite Heq.
  destruct (decide (i = j)) as [<- | Hne].
  - exists tx'. split.
    + apply list_lookup_insert_eq. by eapply lookup_lt_Some.
    + congruence.
  - exists y. rewrite list_lookup_insert_ne by done.
    split; [done | apply sameEntry_refl].
Qed.

(** One request keeps the ledger. *)
Lemma serve_keeps_ledger (w : AI.World) (request : Request) :
  ledgerKept (AI.db w) (AI.db (serve1 w request)).
Proof.
  destruct request as [now | uid body now | event now | uid body intentId
                      | uid intentId txid st now | userId n reason now
                      | id body now]; simpl.
  - unfold Auth.register. destruct (validates _); [| apply ledgerKept_refl].
    by eapply ledgerKept_append.
  - destruct (generate_footprint OPENAI_API_KEY ANTHROPIC_API_KEY provider
                w uid body now) as (_ & _ & new & Hnew & _).
    by eapply ledgerKept_append.
  - destruct event as [pi | pi |]; simpl; [| | apply ledgerKept_refl].
    + unfold Payments.handlePaymentSuccess.
      destruct (findByPaymentIntent _ _) as [[i tx] |] eqn:Hfind;
        [| apply ledgerKept_refl].
      case_bool_decide; [apply ledgerKept_refl |].
      destruct (users _ !! _); [| apply ledgerKept_refl].
      apply list_find_Some in Hfind as (Hi & _ & _).
      eapply (ledgerKept_update _ _ i tx); [done | | reflexivity].
      by repeat split.
    + unfold Payments.handlePaymentFailure.
      destruct (findByPaymentIntent _ _) as [[i tx] |] eqn:Hfind;
        [| apply ledgerKept_refl].
      case_bool_decide; [apply ledgerKept_refl |].
      apply list_find_Some in Hfind as (Hi & _ & _).
      eapply (ledgerKept_update _ _ i tx); [done | | reflexivity].
      by repeat split.
  - unfold Purchases.createPaymentIntent.
    destruct (users (AI.db w) !! uid); [| apply ledgerKept_refl].
    destruct (negb _); [apply ledgerKept_refl |].
    destruct (Purchases.creditPackages !! _); [| apply ledgerKept_refl].
    destruct intentId; [| apply ledgerKept_refl].
    case_bool_decide; [| apply ledgerKept_refl].
    by eapply ledgerKept_append.
  - unfold Purchases.confirmPayment, Purchases.findOwnTransaction.
    case_bool_decide; [apply ledgerKept_refl |].
    destruct (transactions (AI.db w) !! txid) as [tx |] eqn:Htx;
      [| apply ledgerKept_refl].
    destruct (_ && _); [| apply ledgerKept_refl].
    case_bool_decide; [apply ledgerKept_refl |].
    destruct st as [st |]; [| apply ledgerKept_refl].
    case_bool_decide.
    + destruct (users (AI.db w) !! uid); [| apply ledgerKept_refl].
      eapply (ledgerKept_update _ _ txid tx); [done | | reflexivity].
      by repeat split.
    + eapply (ledgerKept_update _ _ txid tx); [done | | reflexivity].
      by repeat split.
  - unfold Purchases.adminAddCredits.
    destruct (negb _); [apply ledgerKept_refl |].
    destruct (users (AI.db w) !! userId) as [u |]; [| apply ledgerKept_refl].
    destruct (Purchases.addCreditsBody u n); [| apply ledgerKept_refl].
    destruct (Purchases.creditsValue n); [| apply ledgerKept_refl].
    by eapply ledgerKept_append.
  - unfold Admin.refundRoute.
    destruct (negb _); [apply ledgerKept_refl |].
    destruct (transactions (AI.db w) !! id) as [tx |] eqn:Htx;
      [| apply ledgerKept_refl].
    case_bool_decide; [apply ledgerKept_refl |].
    destruct (isRefunded (refund tx)) eqn:Href; [apply ledgerKept_refl |].
    cbv zeta.
    assert (Hsame : sameEntry tx
              (processRefund tx (Admin.refundAmountOf body tx) (Admin.reason body)
                 ("refund_" +:+ pretty now) now)) by by repeat split.
    unfold saveTransaction at 1. simpl users.
    destruct (users (AI.db w) !! user tx) as [u |].
    + destruct (Admin.clawback u _);
        (eapply (ledgerKept_update _ _ id tx); [done | exact Hsame | reflexivity]).
    + destruct (0 <? _);
        (eapply (ledgerKept_update _ _ id tx); [done | exact Hsame | reflexivity]).
Qed.

(** X18.  The ledger is append-only under any sequence of requests: every
    stored transaction stays at its position and keeps its owner, kind,
    money amount, credits and payment intent, and a transaction flagged as
    refunded stays flagged. *)
Theorem api_keeps_the_ledger (w : AI.World) (requests : list Request) :
  ledgerKept (AI.db w) (AI.db (serveSeq w requests)).
Proof.
  revert w. unfold Api.serveAll.
  induction requests as [| r rest IH]; intros w; simpl.
  - apply ledgerKept_refl.
  - eapply ledgerKept_trans; [apply serve_keeps_ledger | apply IH].
Qed.

End ApiFacts.

Section OffsetFacts.
Import UserModel TransactionModel Store Api.

Variables (OPENAI_API_KEY ANTHROPIC_API_KEY : option string).
Variable provider : string -> string -> string -> AI.ProviderAnswer.
Variable env : option Z.





End OffsetFacts.

(** ** Login lockout *)

Section LoginFacts.
Import Login.

Lemma login_keeps_lockJustified (s : LoginFields) (active ok : bool) (now : Z) :
  lockJustified s → lockJustified (login s active ok now).2.
Proof.
  unfold lockJustified. intros [Hn Hl]. unfold login.
  destruct (isLocked s now) eqn:Hlocked; [done |].
  destruct ok; simpl.
  - destruct active; simpl; [| done]. split; [done |]. by intros [? [=]].
  - unfold incLoginAttempts, isLocked in *.
    destruct (lockUntil s) as [t |] eqn:Ht.
    + specialize (Hl (ltac:(eauto))).
      destruct (t <? now); simpl.
      * split; [lia |]. by intros [? [=]].
      * split; [lia |]. intros _. lia.
    + simpl. rewrite andb_true_r.
      destruct (Z.leb_spec 5 (loginAttempts s + 1)); simpl.
      * split; [lia |]. intros _. lia.
      * split; [lia |]. by intros [? [=]].
Qed.

(** X20.  However many login attempts a new account sees, at whatever
    times and with whatever passwords, it is only ever locked with at
    least five failed attempts on record. *)
Theorem lock_needs_five_failures (l : list Attempt) (t : Z) :
  lockUntil (attempts newLogin l) = Some t →
  5 <= loginAttempts (attempts newLogin l).
Proof.
  assert (H : ∀ s, lockJustified s → lockJustified (attempts s l)).
  { unfold attempts. induction l as [| a rest IH]; intros s Hs; simpl; [done |].
    apply IH. by apply login_keeps_lockJustified. }
  intros Ht. destruct (H newLogin) as [_ Hl].
  - split; simpl; [lia |]. by intros [? [=]].
  - apply Hl. eauto.
Qed.

(** X21.  Five wrong passwords in a row on a new account lock it for two
    hours from the fifth; until then every login attempt, with the right
    password or a wrong one, is answered 423 and changes nothing. *)
Theorem five_failures_lock_for_two_hours (t1 t2 t3 t4 t5 : Z) :
  let s := attempts newLogin
             [(t1, false); (t2, false); (t3, false); (t4, false); (t5, false)] in
  s = {| loginAttempts := 5; lockUntil := Some (t5 + 7200000) |} ∧
  ∀ (now : Z) (active ok : bool),
    now < t5 + 7200000 → login s active ok now = (Locked423, s).
Proof.
  intros s.
  assert (Hs : s = {| loginAttempts := 5; lockUntil := Some (t5 + 7200000) |})
    by reflexivity.
  split; [exact Hs |].
  intros now active ok Hnow. rewrite Hs. unfold login, isLocked. simpl.
  by destruct (Z.ltb_spec now (t5 + 7200000)); [| lia].
Qed.

(** X22.  Once the lock has run out, the right password logs in and
    clears the record; a wrong password restarts the count at one without
    a lock when the clock is past the expiry, and at the very instant of
    expiry it locks the account for another two hours. *)
Theorem lock_expiry (s : LoginFields) (t now : Z) :
  lockUntil s = Some t →
  4 <= loginAttempts s →
  t <= now →
  login s true true now = (LoggedIn200, newLogin) ∧
  (t < now →
     login s true false now
     = (InvalidCredentials401, {| loginAttempts := 1; lockUntil := None |})) ∧
  (t = now →
     login s true false now
     = (InvalidCredentials401,
        {| loginAttempts := loginAttempts s + 1;
           lockUntil := Some (now + 7200000) |})).
Proof.
  intros Ht Hn Hnow. unfold login, isLocked, incLoginAttempts, isLocked.
  rewrite Ht.
  destruct (Z.ltb_spec now t); [lia |]. simpl.
  split_and!; [done | |].
  - intros Hlt. by destruct (Z.ltb_spec t now); [| lia].
  - intros ->. destruct (Z.ltb_spec now now); [lia |].
    destruct (Z.leb_spec 5 (loginAttempts s + 1)); [| lia]. done.
Qed.

End LoginFacts.

(** ** Subscription gate *)

(** X23.  The subscription gate is ordered: a user who passes the
    enterprise gate passes the premium gate, and one who passes the premium
    gate passes the basic gate; a gate set up with a level name that is
    neither in the table nor inherited behaves as the basic gate, and a
    user without a subscription passes no gate of either kind.  A gate set
    up with a name every object inherits compares with a function: every
    user whose subscription is active passes it, whatever its type. *)
Theorem checkSubscription_is_ordered :
  (∀ user,
     Middleware.checkSubscription "enterprise" user = Middleware.Next →
     Middleware.checkSubscription "premium" user = Middleware.Next) ∧
  (∀ user,
     Middleware.checkSubscription "premium" user = Middleware.Next →
     Middleware.checkSubscription "basic" user = Middleware.Next) ∧
  (∀ requiredLevel user,
     Obj.get Middleware.levels requiredLevel = Obj.Undefined →
     Middleware.checkSubscription requiredLevel user
     = Middleware.checkSubscription "basic" user) ∧
  (∀ requiredLevel status,
     requiredLevel ∉ Obj.inherited →
     Middleware.checkSubscription requiredLevel
       (Some {| Middleware.sub_type := Middleware.sub_none;
                Middleware.sub_status := status |})
     = Middleware.Forbidden403) ∧
  (∀ requiredLevel subscription,
     requiredLevel ∈ Obj.inherited →
     Middleware.checkSubscription requiredLevel (Some subscription)
     = if bool_decide (Middleware.sub_status subscription = Middleware.active)
       then Middleware.Next else Middleware.Forbidden403).
Proof.
  assert (Hlev : ∀ k, k ∉ Obj.inherited →
                      Middleware.levelOr k 1 = Some 1 ∨ Middleware.levelOr k 1 = Some 2
                      ∨ Middleware.levelOr k 1 = Some 3).
  { intros k Hk. unfold Middleware.levelOr, Obj.get, Middleware.levels.
    destruct (_ !! k) as [n |] eqn:Hn.
    - repeat (apply lookup_insert_Some in Hn as [[_ <-] | [_ Hn]];
              [simpl; auto |]).
      by rewrite lookup_empty in Hn.
    - rewrite bool_decide_eq_false_2 by done. auto. }
  split_and!.
  - intros [[ty st] |]; [| done].
    destruct ty; unfold Middleware.checkSubscription; simpl;
      by destruct (bool_decide _).
  - intros [[ty st] |]; [| done].
    destruct ty; unfold Middleware.checkSubscription; simpl;
      by destruct (bool_decide _).
  - intros requiredLevel [sub |] Hnone; [| done].
    unfold Middleware.checkSubscription, Middleware.levelOr at 2.
    rewrite Hnone. reflexivity.
  - intros requiredLevel st Hown. unfold Middleware.checkSubscription.
    cbn [Middleware.sub_type Middleware.sub_status Middleware.typeName].
    change (Middleware.levelOr "none" 0) with (Some 0).
    destruct (Hlev requiredLevel Hown) as [-> | [-> | ->]]; done.
  - intros requiredLevel sub Hin. unfold Middleware.checkSubscription.
    replace (Middleware.levelOr requiredLevel 1) with (@None Z).
    + destruct (Middleware.levelOr _ 0); simpl; by destruct (bool_decide _).
    + unfold Obj.inherited in Hin.
      repeat (apply elem_of_cons in Hin as [-> | Hin]; [by vm_compute |]).
      by inversion Hin.
Qed.

(** ** Messaging *)

Section MessagingFacts.
Import Messaging.

(** The loop of [sendBulkSMS] files every recipient under exactly one of
    [results] and [errors]. *)
Lemma bulkLoop_counts (send : nat → string → SendOutcome) (recipients : list string) :
  ∀ n res err,
    (length (bulkLoop send n recipients res err).1
     + length (bulkLoop send n recipients res err).2
     = length res + length err + length recipients)%nat.
Proof.
  induction recipients as [| phone rest IH]; intros n res err; simpl; [lia |].
  destruct (send n phone); rewrite IH, length_app; simpl; lia.
Qed.

(** Without a sender that succeeds, the loop records only errors. *)
Lemma bulkLoop_all_errors (send : nat → string → SendOutcome)
    (recipients : list string) :
  (∀ n phone, ∃ e, send n phone = SendError e) →
  ∀ n res err, (bulkLoop send n recipients res err).1 = res.
Proof.
  intros Hsend. induction recipients as [| phone rest IH]; intros n res err;
    simpl; [done |].
  destruct (Hsend n phone) as [e ->]. apply IH.
Qed.

(** X24.  [sendBulkSMS] accounts for every recipient: the numbers of
    messages sent and of errors add up to the number of recipients, each is
    the length of its list, [success] holds exactly when there was no
    error, and without a configured client nothing is sent and every
    recipient is an error. *)
Theorem sendBulkSMS_accounts_for_every_recipient
    (twilio : option (nat → string → string → SmsReceipt + string))
    (recipients : list string) (message : string) :
  let r := sendBulkSMS twilio recipients message in
  (totalSent r + totalErrors r = length recipients)%nat ∧
  totalSent r = length (results r) ∧
  totalErrors r = length (errors r) ∧
  (success r = true ↔ totalErrors r = 0%nat) ∧
  (twilio = None → totalSent r = 0%nat ∧ totalErrors r = length recipients).
Proof.
  intros r. unfold r, sendBulkSMS.
  set (send := λ n phone, sendSMS ((λ client, client n) <$> twilio) phone message).
  pose proof (bulkLoop_counts send recipients 0%nat [] []) as Hcount.
  pose proof (bulkLoop_all_errors send recipients) as Hnone.
  destruct (bulkLoop send 0%nat recipients [] []) as [res err] eqn:Hloop.
  simpl in *. split_and!; try done.
  - apply bool_decide_eq_true.
  - intros ->.
    assert (Hres : res = []).
    { change res with (res, err).1. rewrite <- Hloop. apply Hnone.
      intros n phone. unfold send. simpl. eauto. }
    subst res. simpl in *. split; [done | lia].
Qed.

(** One report raises [sent] or [failed] by one, and [delivered] and
    [pending] together by no more than [sent]. *)
Lemma countReport_step (stats : Stats) (r : SendReport) :
  total (countReport stats r) = total stats ∧
  (sent (countReport stats r) + failed (countReport stats r)
   = sent stats + failed stats + 1)%nat ∧
  ∃ k, sent (countReport stats r) = (sent stats + k)%nat ∧
       (delivered (countReport stats r) + pending (countReport stats r)
        <= delivered stats + pending stats + k)%nat.
Proof.
  unfold countReport. destruct (report_success r); simpl.
  - split; [done |]. split; [lia |]. exists 1%nat. split; [lia |].
    repeat case_bool_decide; simpl; lia.
  - split; [done |]. split; [lia |]. exists 0%nat. lia.
Qed.

(** The counters of [getMessagingStats] after any part of the loop. *)
Lemma countReport_invariant (results : list SendReport) :
  ∀ stats,
    total (fold_left countReport results stats) = total stats ∧
    (sent (fold_left countReport results stats)
     + failed (fold_left countReport results stats)
     = sent stats + failed stats + length results)%nat ∧
    ∃ k, sent (fold_left countReport results stats) = (sent stats + k)%nat ∧
         (delivered (fold_left countReport results stats)
          + pending (fold_left countReport results stats)
          <= delivered stats + pending stats + k)%nat.
Proof.
  induction results as [| r rest IH]; intros stats; cbn [fold_left length].
  - split; [done |]. split; [lia |]. exists 0%nat. lia.
  - destruct (IH (countReport stats r)) as (H1 & H2 & k & H3 & H4).
    destruct (countReport_step stats r) as (S1 & S2 & j & S3 & S4).
    split; [congruence |]. split; [lia |]. exists (j + k)%nat. lia.
Qed.

(** X25.  In the statistics of [getMessagingStats] every report is
    counted once as sent or as failed, [total] is the number of reports,
    and the delivered and pending messages together never exceed the sent
    ones. *)
Theorem getMessagingStats_is_consistent (results : list SendReport) :
  let stats := getMessagingStats results in
  total stats = length results ∧
  (sent stats + failed stats = total stats)%nat ∧
  (delivered stats + pending stats <= sent stats)%nat.
Proof.
  intros stats. unfold stats, getMessagingStats.
  destruct (countReport_invariant results
              {| total := length results; sent := 0; failed := 0;
                 pending := 0; delivered := 0 |}) as (H1 & H2 & k & H3 & H4).
  cbn [total sent failed pending delivered] in *. lia.
Qed.

Lemma digitsOf_idempotent (s : string) : digitsOf (digitsOf s) = digitsOf s.
Proof.
  induction s as [| c rest IH]; simpl; [done |].
  destruct (isDigit c) eqn:Hc; simpl; [| done]. by rewrite Hc, IH.
Qed.

Lemma digitsOf_plus (s : string) : digitsOf ("+" +:+ s) = digitsOf s.
Proof. reflexivity. Qed.

Lemma digitsOf_55 (s : string) :
  digitsOf ("55" +:+ s) = ("55" +:+ digitsOf s)%string.
Proof. reflexivity. Qed.

Lemma prefix_55 (s : string) : String.prefix "55" ("55" +:+ s) = true.
Proof.
  apply String.prefix_correct. by destruct s.
Qed.

Lemma length_55 (s : string) :
  String.length ("55" +:+ s) = S (S (String.length s)).
Proof. reflexivity. Qed.

(** X26.  A number [validatePhoneNumber] accepts is returned as "+"
    followed by at least ten digits and nothing else, and the formatted
    number is a fixed point: validating it again returns it unchanged. *)
Theorem validatePhoneNumber_is_idempotent (phone formatted : string) :
  validatePhoneNumber phone = ValidPhone formatted →
  (∃ digits, formatted = ("+" +:+ digits)%string ∧
             digitsOf digits = digits ∧
             (10 <= String.length digits)%nat) ∧
  validatePhoneNumber formatted = ValidPhone formatted.
Proof.
  unfold validatePhoneNumber at 1.
  pose proof (digitsOf_idempotent phone) as Hclean.
  generalize dependent (digitsOf phone). intros clean Hclean.
  destruct (Nat.ltb_spec (String.length clean) 10) as [| Hlen]; [done |].
  intros [= <-].
  destruct (negb (String.prefix "55" clean) && (String.length clean =? 11)%nat)
    eqn:Hcond.
  - (* the country code was added *)
    split.
    + exists ("55" +:+ clean)%string.
      rewrite digitsOf_55, Hclean, length_55. split_and!; [done | done | lia].
    + unfold validatePhoneNumber.
      rewrite digitsOf_plus, digitsOf_55, Hclean, length_55, prefix_55.
      by destruct (Nat.ltb_spec (S (S (String.length clean))) 10); [lia |].
  - split.
    + exists clean. by split_and!.
    + unfold validatePhoneNumber.
      rewrite digitsOf_plus, Hclean, Hcond.
      by destruct (Nat.ltb_spec (String.length clean) 10); [lia |].
Qed.

End MessagingFacts.

(** ** Failed payments, registration, and refunds of usage *)

Section MoreFlows.
Import UserModel TransactionModel Store.

(** X27.  The failed-payment webhook of a pending purchase marks it failed
    with the provider's message, or "Pagamento falhou" when there is none,
    and moves no balance; delivering it again changes nothing. *)
Theorem failure_webhook_marks_failed_once (db : DB)
    (paymentIntent : Payments.PaymentIntent) (i : nat) (tx : Transaction)
    (now later : Z) :
  findByPaymentIntent db (Payments.id paymentIntent) = Some (i, tx) →
  status tx = pending →
  let failedDb := Payments.handlePaymentFailure db paymentIntent now in
  failedDb =
    saveTransaction db i
      (markFailed tx (Payments.failureMessage paymentIntent) now) ∧
  users failedDb = users db ∧
  (Payments.last_payment_error paymentIntent = None →
     failureReason <$> (transactions failedDb !! i)
     = Some (Some "Pagamento falhou"%string)) ∧
  Payments.handlePaymentFailure failedDb paymentIntent later = failedDb.
Proof.
  intros Hfind Hst failedDb.
  pose proof Hfind as (Hi & Hpid & Hmin)%list_find_Some.
  assert (Hlt : (i < length (transactions db))%nat) by by eapply lookup_lt_Some.
  assert (Hf : failedDb =
    saveTransaction db i
      (markFailed tx (Payments.failureMessage paymentIntent) now)).
  { unfold failedDb, Payments.handlePaymentFailure. rewrite Hfind.
    by rewrite bool_decide_eq_false_2 by (rewrite Hst; intros H; by apply H). }
  split_and!; [done | by rewrite Hf | |].
  - intros Hnone. rewrite Hf. simpl.
    rewrite list_lookup_insert_eq by done. simpl.
    unfold Payments.failureMessage. by rewrite Hnone.
  - assert (Hfound : findByPaymentIntent failedDb (Payments.id paymentIntent)
                     = Some (i, markFailed tx (Payments.failureMessage paymentIntent) now)).
    { rewrite Hf. unfold findByPaymentIntent. simpl. apply list_find_Some.
      split_and!.
      - by apply list_lookup_insert_eq.
      - exact Hpid.
      - intros j y Hj Hjlt. rewrite list_lookup_insert_ne in Hj by lia. eauto. }
    unfold Payments.handlePaymentFailure at 1. rewrite Hfound.
    by rewrite bool_decide_eq_true_2.
Qed.

(** [parseInt(process.env.DEFAULT_CREDITS)] *)
Variable env : option Z.

(** X28.  With a welcome bonus that is not negative, registration stores
    the new user under an id no user had, with a balance equal to the
    credits of the welcome-bonus transaction it appends and both totals at
    zero; the bonus is 10 when [DEFAULT_CREDITS] is unset or 0.  With a
    negative [DEFAULT_CREDITS] the new user fails the schema's [min: 0]
    and nothing is stored.  Either way every existing user and transaction
    is left alone. *)
Theorem register_records_the_bonus (db : DB) (now : Z) :
  let uid := fresh (dom (users db)) in
  let db' := Auth.register db env uid now in
  users db !! uid = None ∧
  (0 <= DEFAULT_CREDITS env →
   ∃ u tx, users db' !! uid = Some u ∧
           transactions db' = transactions db ++ [tx] ∧
           user tx = uid ∧ type tx = bonus ∧ status tx = completed ∧
           TransactionModel.credits tx = UserModel.credits u ∧
           UserModel.credits u = DEFAULT_CREDITS env ∧
           totalCreditsPurchased u = 0 ∧ totalCreditsUsed u = 0) ∧
  (DEFAULT_CREDITS env < 0 → db' = db) ∧
  (∀ k u, users db !! k = Some u → users db' !! k = Some u) ∧
  (env = None ∨ env = Some 0 →
     UserModel.credits <$> (users db' !! uid) = Some 10).
Proof.
  intros uid db'.
  assert (Hfresh : users db !! uid = None).
  { apply not_elem_of_dom. apply is_fresh. }
  split_and!; [done | | | |].
  - intros Henv.
    destruct (register_stores_newUser db env uid now Henv) as [Heq Hnew].
    exists (newUser env), (Auth.welcomeTransaction env uid now).
    unfold db'. rewrite Heq. split_and!; try done. simpl. apply lookup_insert_eq.
  - intros Hneg. unfold db', Auth.register, validates. simpl.
    by destruct (Z.leb_spec 0 (DEFAULT_CREDITS env)); [lia |].
  - intros k u Hk. unfold db', Auth.register.
    destruct (validates _); [| done]. simpl.
    rewrite lookup_insert_ne; [done |].
    intros Heq. subst k. fold uid in Hk. congruence.
  - intros Hunset.
    assert (Henv : DEFAULT_CREDITS env = 10) by by destruct Hunset as [-> | ->].
    destruct (register_stores_newUser db env uid now) as [_ Hnew]; [lia |].
    unfold db'. rewrite Hnew. simpl. by rewrite Henv.
Qed.

End MoreFlows.

(** ** The further properties at concrete inputs *)

(** X9 at a concrete input: no API key at all. *)
Lemma generate_without_keys_is_inert_witness :
  AI.providerCalls
    (AI.generate None None Scenario2.answering Scenario.freshWorld 0
       Scenario.hello 9).2 = 0%nat ∧
  AI.db (AI.generate None None Scenario2.answering Scenario.freshWorld 0
           Scenario.hello 9).2 = AI.db Scenario.freshWorld.
Proof.
  apply (generate_without_keys_is_inert None None Scenario2.answering
           Scenario.freshWorld 0 Scenario.hello 9); reflexivity.
Defined.

(** X10 at a concrete input: a code generation request. *)
Lemma preparePrompt_validated_is_identity_witness :
  Prompting.preparePrompt "sort a list" "code_generation" = "sort a list"%string.
Proof.
  apply (preparePrompt_validated_is_identity "sort a list" "code_generation").
  unfold Validation.allowedRequestTypes.
  apply list_elem_of_further, list_elem_of_here.
Defined.

(** X11 at a concrete input: user 0 buys the premium package under the
    intent "pi_2" and the webhook arrives at time 5. *)
Lemma purchase_then_webhook_credits_package_witness :
  let premium := {| Purchases.pkg_name := "Pacote Premium";
                    Purchases.pkg_credits := 500;
                    Purchases.pkg_price := 3999 # 100;
                    Purchases.pkg_currency := "BRL";
                    Purchases.pkg_bonus := Some 100 |} in
  let created :=
    Purchases.createPaymentIntent Scenario2.stripePi2 Scenario.premiumStore 0
      Scenario2.buyPremium in
  let settled :=
    Payments.handlePaymentSuccess created.2
      {| Payments.id := "pi_2"; Payments.last_payment_error := None |} 5 in
  created.1 = Purchases.IntentCreated "pi_2" 1 ∧
  Store.users created.2 = Store.users Scenario.premiumStore ∧
  Store.transactions created.2 =
    Store.transactions Scenario.premiumStore
      ++ [Purchases.purchaseTransaction 0 premium "pi_2"] ∧
  Store.users settled =
    <[0%nat := UserModel.addCredits (UserModel.newUser None) 600]>
      (Store.users Scenario.premiumStore) ∧
  Store.transactions settled =
    Store.transactions Scenario.premiumStore
      ++ [TransactionModel.markCompleted
            (Purchases.purchaseTransaction 0 premium "pi_2") 5] ∧
  500 <= 600.
Proof.
  intros premium.
  apply (purchase_then_webhook_credits_package Scenario2.stripePi2
           Scenario.premiumStore 0 Scenario2.buyPremium (UserModel.newUser None)
           premium "pi_2" None 5);
    [reflexivity | reflexivity | | reflexivity..].
  unfold TransactionModel.packageEnum.
  apply list_elem_of_further, list_elem_of_here.
Defined.

(** X12 at a concrete input: the pending premium purchase of user 0. *)
Lemma confirm_and_webhook_credit_once_witness :
  let credited :=
    Store.saveTransaction
      (Store.saveUser Scenario.premiumStore 0
         (UserModel.addCredits (UserModel.newUser None) 600))
      0 (TransactionModel.markCompleted Scenario.premiumPurchase 1) in
  (Purchases.confirmPayment (Some "succeeded"%string) Scenario.premiumStore 0
     "pi_1" 0 1).2 = credited ∧
  Payments.handlePaymentSuccess credited Scenario.pi_1 2 = credited ∧
  Payments.handlePaymentSuccess Scenario.premiumStore Scenario.pi_1 1 = credited ∧
  Purchases.confirmPayment (Some "succeeded"%string) credited 0 "pi_1" 0 2
    = (Purchases.AlreadyProcessed400, credited).
Proof.
  apply (confirm_and_webhook_credit_once Scenario.premiumStore 0 Scenario.pi_1 0
           Scenario.premiumPurchase (UserModel.newUser None) 1 2
           (Some "succeeded"%string)); [discriminate | reflexivity..].
Defined.

(** X13 at a concrete input: user 1 tries to confirm the purchase of
    user 0. *)
Lemma confirmPayment_foreign_transaction_witness :
  Purchases.confirmPayment (Some "succeeded"%string) Scenario.premiumStore 1
    "pi_1" 0 1
  = (Purchases.ConfirmNotFound404, Scenario.premiumStore).
Proof.
  apply (confirmPayment_foreign_transaction (Some "succeeded"%string)
           Scenario.premiumStore 1 "pi_1" 0 1 Scenario.premiumPurchase).
  - discriminate.
  - reflexivity.
  - left. simpl. discriminate.
Defined.

(** X14 at a concrete input: the purchase is confirmed while the provider
    still reports "processing". *)
Lemma early_confirm_then_webhook_still_credits_witness :
  let early :=
    Purchases.confirmPayment (Some "processing"%string) Scenario.premiumStore 0
      "pi_1" 0 1 in
  let final := Payments.handlePaymentSuccess early.2 Scenario.pi_1 2 in
  early.1 = Purchases.NotConfirmed400 "processing" ∧
  Store.users early.2 = Store.users Scenario.premiumStore ∧
  TransactionModel.status <$> (Store.transactions early.2 !! 0%nat)
    = Some TransactionModel.failed ∧
  Store.users final =
    <[0%nat := UserModel.addCredits (UserModel.newUser None) 600]>
      (Store.users Scenario.premiumStore) ∧
  TransactionModel.status <$> (Store.transactions final !! 0%nat)
    = Some TransactionModel.completed.
Proof.
  apply (early_confirm_then_webhook_still_credits Scenario.premiumStore 0
           Scenario.pi_1 0 Scenario.premiumPurchase (UserModel.newUser None)
           "processing" 1 2);
    [discriminate | discriminate | reflexivity..].
Defined.

(** X15 at a concrete input: the settled premium purchase is refunded
    while its owner holds 610 credits. *)
Lemma refund_clawback_all_or_nothing_witness :
  let after :=
    (Admin.refundRoute Scenario.settledStore 0 Scenario2.refundAll 5).2 in
  (∃ u', Store.users after !! 0%nat = Some u' ∧
         UserModel.credits u' = 10 ∧
         UserModel.totalCreditsUsed u' = 0 ∧
         UserModel.totalCreditsPurchased u' = 600) ∧
  (∀ other, other ≠ 0%nat →
     Store.users after !! other = Store.users Scenario.settledStore !! other).
Proof.
  apply (refund_clawback_all_or_nothing Scenario.settledStore 0
           Scenario2.refundAll 5 Scenario2.settledPurchase
           Scenario2.settledOwner); reflexivity.
Defined.

(** X16 at a concrete input: refund at 5, webhook again at 6, refund again
    at 7. *)
Lemma replay_after_refund_then_refund_again_witness :
  let refundedDb :=
    (Admin.refundRoute Scenario.settledStore 0 Scenario2.refundAll 5).2 in
  let replayed := Payments.handlePaymentSuccess refundedDb Scenario.pi_1 6 in
  UserModel.credits <$> (Store.users replayed !! 0%nat) = Some 610 ∧
  Admin.refundRoute replayed 0 Scenario2.refundAll 7
    = (Admin.AlreadyRefunded400, replayed).
Proof.
  pose proof (replay_after_refund_then_refund_again Scenario.settledStore
                Scenario.pi_1 0 Scenario2.settledPurchase
                (UserModel.setCredits Scenario2.settledOwner 10)
                Scenario2.refundAll Scenario2.refundAll 5 6 7
                eq_refl eq_refl eq_refl eq_refl eq_refl eq_refl)
    as (Hu & _ & Hsecond).
  split; [| exact Hsecond].
  simpl in Hu. simpl. by rewrite Hu.
Defined.

(** A store with one fresh user and no transaction satisfies both
    invariants. *)
Lemma freshWorld_invariants :
  Store.balancesNonneg (AI.db Scenario.freshWorld) ∧
  Store.grantsNonneg (AI.db Scenario.freshWorld).
Proof.
  split.
  - intros uid u. simpl. intros [_ <-]%lookup_singleton_Some. simpl. lia.
  - intros i tx. simpl. by rewrite lookup_nil.
Qed.

(** X17 at a concrete input: a day of traffic on a fresh store. *)
Lemma api_never_makes_a_balance_negative_witness :
  let w := Api.serveAll (Some "sk-1"%string) (Some "sk-2"%string)
             Scenario2.answering None Scenario.freshWorld Scenario2.traffic in
  Store.balancesNonneg (AI.db w) ∧ Store.grantsNonneg (AI.db w).
Proof.
  apply (api_never_makes_a_balance_negative (Some "sk-1"%string)
           (Some "sk-2"%string) Scenario2.answering None
           Scenario.freshWorld Scenario2.traffic).
  - simpl. lia.
  - exact (proj1 freshWorld_invariants).
  - exact (proj2 freshWorld_invariants).
Defined.


(** X20 at a concrete input: five failures at times 1 to 5. *)
Lemma lock_needs_five_failures_witness :
  5 <= Login.loginAttempts
         (Login.attempts Login.newLogin
            [(1, false); (2, false); (3, false); (4, false); (5, false)]).
Proof.
  apply (lock_needs_five_failures
           [(1, false); (2, false); (3, false); (4, false); (5, false)]
           (5 + 7200000)).
  reflexivity.
Defined.

(** X22 at a concrete input: a lock that ran out at 100, seen at 200. *)
Lemma lock_expiry_witness :
  let s := {| Login.loginAttempts := 5; Login.lockUntil := Some 100 |} in
  Login.login s true true 200 = (Login.LoggedIn200, Login.newLogin) ∧
  Login.login s true false 200
  = (Login.InvalidCredentials401,
     {| Login.loginAttempts := 1; Login.lockUntil := None |}).
Proof.
  intros s.
  pose proof (lock_expiry s 100 200 eq_refl) as H.
  assert (H4 : 4 <= Login.loginAttempts s) by (simpl; lia).
  assert (Hle : 100 <= 200) by lia.
  destruct (H H4 Hle) as (Hok & Hpast & _).
  split; [exact Hok | apply Hpast; lia].
Defined.

(** X26 at a concrete input: a mobile number written with punctuation. *)
Lemma validatePhoneNumber_is_idempotent_witness :
  Messaging.validatePhoneNumber "(11) 99999-8888"
    = Messaging.ValidPhone "+5511999998888" ∧
  Messaging.validatePhoneNumber "+5511999998888"
    = Messaging.ValidPhone "+5511999998888".
Proof.
  assert (H : Messaging.validatePhoneNumber "(11) 99999-8888"
              = Messaging.ValidPhone "+5511999998888") by reflexivity.
  split; [exact H |].
  exact (proj2 (validatePhoneNumber_is_idempotent "(11) 99999-8888"
                  "+5511999998888" H)).
Defined.

(** X27 at a concrete input: the failed webhook of the pending premium
    purchase, delivered at 1 and at 2. *)
Lemma failure_webhook_marks_failed_once_witness :
  let failedDb := Payments.handlePaymentFailure Scenario.premiumStore
                    Scenario.pi_1 1 in
  Store.users failedDb = Store.users Scenario.premiumStore ∧
  TransactionModel.failureReason <$> (Store.transactions failedDb !! 0%nat)
    = Some (Some "Pagamento falhou"%string) ∧
  Payments.handlePaymentFailure failedDb Scenario.pi_1 2 = failedDb.
Proof.
  pose proof (failure_webhook_marks_failed_once Scenario.premiumStore
                Scenario.pi_1 0 Scenario.premiumPurchase 1 2 eq_refl eq_refl)
    as (_ & Hu & Hmsg & Hagain).
  split; [exact Hu |]. split; [exact (Hmsg eq_refl) | exact Hagain].
Defined.

(** X3 at a concrete input: 1000 tokens, where gpt-4 is charged one
    credit more than the exact price. *)
Lemma calculateCredits_against_exact_price_witness :
  Number.toZ (Pricing.calculateCredits None None (Number.ofZ 1000) "gpt-4")
    = Some (Pricing.exactCredits 1000 (3 # 100000)
            + (if bool_decide (1000 ∈ [1000; 2000]) then 1 else 0)) ∧
  Number.toZ (Pricing.calculateCredits None None (Number.ofZ 1000) "gpt-3.5-turbo")
    = Some (Pricing.exactCredits 1000 (2 # 1000000)) ∧
  Number.toZ (Pricing.calculateCredits None None (Number.ofZ 1000) "claude-3-sonnet")
    = Some (Pricing.exactCredits 1000 (15 # 1000000)
            + (if bool_decide (1000 = 2000) then 1 else 0)) ∧
  ∀ usd, (0 <= usd)%Q → 1 <= Pricing.exactCredits 1000 usd.
Proof.
  apply (calculateCredits_against_exact_price None None 1000). lia.
Defined.

(** X4 at a concrete input: the prompt "hi", estimated at 501 tokens. *)
Lemma admission_estimate_witness :
  500 <= AI.estimatedTokens "hi" <= 3000 ∧
  Number.toZ
    (Pricing.calculateCredits None None
       (Number.ofZ (AI.estimatedTokens "hi")) "gpt-3.5-turbo") = Some 1 ∧
  ∃ credits,
    Number.toZ
      (Pricing.calculateCredits None None
         (Number.ofZ (AI.estimatedTokens "hi")) "gpt-4") = Some credits ∧
    2 <= credits <= 9.
Proof.
  apply (admission_estimate None None "hi"). simpl. lia.
Defined.


(** X30 at a concrete input: a million tokens of a model no provider has. *)
Lemma calculateCredits_unlisted_model_witness :
  Pricing.isModelAvailable None None "gemini-pro" = false ∧
  Pricing.calculateCredits None None (Number.ofZ 1000000) "gemini-pro"
    = Number.ofZ 1.
Proof.
  apply (calculateCredits_unlisted_model None None (Number.ofZ 1000000)
           "gemini-pro").
  - intros provider config Hin.
    apply elem_of_cons in Hin as [Heq | Hin].
    { by inversion Heq; subst. }
    apply elem_of_cons in Hin as [Heq | Hin]; [| by inversion Hin].
    by inversion Heq; subst.
  - apply (bool_decide_eq_false _). reflexivity.
Defined.

(** X31 at a concrete input: user 0 asks for the mega package by card and
    the payment provider opens the intent "pi_2". *)
Lemma mega_purchase_is_refused_witness :
  Purchases.validIntentBody Scenario2.buyMega = true ∧
  (Scenario2.stripePi2 14999 "brl" = Some "pi_2"%string →
   Purchases.createPaymentIntent Scenario2.stripePi2 Scenario.premiumStore 0
     Scenario2.buyMega = (Purchases.IntentError500, Scenario.premiumStore)) ∧
  (Purchases.createPaymentIntent Scenario2.stripePi2 Scenario.premiumStore 0
     Scenario2.buyMega).2 = Scenario.premiumStore.
Proof.
  apply (mega_purchase_is_refused Scenario2.stripePi2 Scenario.premiumStore 0
           Scenario2.buyMega (UserModel.newUser None) "pi_2").
  - reflexivity.
  - reflexivity.
  - right. left. reflexivity.
Defined.
